(** * Attendance server: key-value handlers of [supabase/functions/server/index.tsx]

    A shallow embedding of the REST handlers (students, attendance,
    check-in) over a key-value store, and the properties of the
    check-in / duplicate-detection workflow. *)

From Stdlib Require Import ZArith Lia Ascii String DecimalString DecimalZ Sorted.
From stdpp Require Import gmap strings list fin_maps pretty.

Set Warnings "-register-all".
Open Scope Z_scope.
Open Scope string_scope.

(** ** JSON values

    Request bodies and stored values are what [JSON.parse] returns.
    Numbers are covered at the integers a double holds exactly (the
    safe integers, of magnitude below 2^53). [undefined] (a missing
    property) is [None] of [option json]. *)

Inductive json : Type :=
  | JNull
  | JBool (b : bool)
  | JNum (n : Z)
  | JStr (s : string)
  | JArr (l : list json)
  | JObj (o : gmap string json).

(** [ToBoolean]: what [!x], [x && y] and [filter] look at. *)
Definition truthy (v : json) : bool :=
  match v with
  | JNull => false
  | JBool b => b
  | JNum n => negb (Z.eqb n 0)
  | JStr s => negb (String.eqb s "")
  | JArr _ | JObj _ => true
  end.

Definition truthy_opt (v : option json) : bool :=
  match v with
  | Some x => truthy x
  | None => false
  end.

(** Property read [v.k] for the property names the handlers use
    ([id], [name], [qrCode], ...): only objects carry them. *)
Definition field (k : string) (v : json) : option json :=
  match v with
  | JObj o => o !! k
  | _ => None
  end.

(** [a === b] on parsed values: primitives compare by value, two objects
    or arrays coming from separate parses are never the same reference. *)
Definition strictEq (a b : option json) : bool :=
  match a, b with
  | None, None => true
  | Some JNull, Some JNull => true
  | Some (JBool x), Some (JBool y) => Bool.eqb x y
  | Some (JNum x), Some (JNum y) => Z.eqb x y
  | Some (JStr x), Some (JStr y) => String.eqb x y
  | _, _ => false
  end.

(** [`${v}`], [String(v)]: string conversion, [None] when it throws.
    An object converts through its [toString] property: an own property
    of that name is parsed data, never a function, so the conversion
    throws a [TypeError]; without one the inherited method answers.
    An array joins its elements, [null] printing as nothing. Numbers
    print in decimal, as the integers [JSON.parse] reads exactly do. *)
Fixpoint toString (v : json) : option string :=
  match v with
  | JNull => Some "null"
  | JBool true => Some "true"
  | JBool false => Some "false"
  | JNum n => Some (pretty n)
  | JStr s => Some s
  | JArr l =>
      (fix join (l : list json) : option string :=
         match l with
         | [] => Some ""
         | x :: r =>
             match (match x with JNull => Some "" | _ => toString x end) with
             | None => None
             | Some e =>
                 match r with
                 | [] => Some e
                 | _ =>
                     match join r with
                     | Some t => Some (e ++ "," ++ t)
                     | None => None
                     end
                 end
             end
         end) l
  | JObj o =>
      match o !! "toString" with
      | Some _ => None
      | None => Some "[object Object]"
      end
  end.

Definition toString_opt (v : option json) : option string :=
  match v with
  | Some x => toString x
  | None => Some "undefined"
  end.

(** Object literal [{ k1: v1, k2: v2, ... }] (distinct keys). *)
Definition obj (l : list (string * json)) : json := JObj (list_to_map l).

Fixpoint chars (s : string) : list json :=
  match s with
  | EmptyString => []
  | String c r => JStr (String c EmptyString) :: chars r
  end.

Definition indexed (l : list json) : gmap string json :=
  list_to_map (imap (fun i x => (pretty i, x)) l).

(** Own enumerable properties copied by object spread [{ ...v }]. *)
Definition spread (v : json) : gmap string json :=
  match v with
  | JObj o => o
  | JArr l => indexed l
  | JStr s => indexed (chars s)
  | _ => ∅
  end.

(** [const { a, b } = body]: throws on [null], otherwise reads properties. *)
Definition destructure (body : json) : option (string -> option json) :=
  match body with
  | JNull => None
  | _ => Some (fun k => field k body)
  end.

(** ** The platform's [Date]

    [new Date(v).getTime()], [toISOString] and [toDateString] belong to
    the JavaScript runtime (parsing and the local time zone are its
    business); the handlers rely on the three facts below, which hold of
    every time value a clock reading can be. [None] is the time value of
    an [Invalid Date] (NaN). The server has one such platform and the
    browser another: [toDateString] is the calendar day in the time zone
    of whoever calls it. *)
Class JsDate := {
  newDate : json -> option Z;
  toISOString : Z -> string;
  toDateString : Z -> string;
  newDate_toISOString : forall t, newDate (JStr (toISOString t)) = Some t;
  toISOString_nonempty : forall t, toISOString t <> "";
  toDateString_valid : forall t, toDateString t <> "Invalid Date"
}.

(** A runnable calendar: instants print as decimal milliseconds behind a
    [T], a day is a UTC day number. *)
Module EpochDates.

Definition parse (v : json) : option Z :=
  match v with
  | JStr (String "T"%char s) => Z.of_int <$> NilEmpty.int_of_string s
  | JNum n => Some n
  | _ => None
  end.

Definition iso (t : Z) : string :=
  String "T"%char (NilEmpty.string_of_int (Z.to_int t)).

Definition day (t : Z) : string := "day " ++ pretty (t / 86400000).

End EpochDates.

(** ** Key-value store *)

Abbreviation store := (gmap string json).

Record row := Row { key : string; value : json }.

(** [kv_store.tsx] is not among the sources. The spec gives "generic
    get/set/delete/prefix-scan over string keys to arbitrary JSON
    values"; the handlers read [item.value] off each scanned entry, so a
    scan yields key/value rows. *)
Module kv.

(** Modelled from the spec: [kv.get] of the missing [kv_store.tsx], the
    value under a key, [undefined] when there is none. *)
Definition get (k : string) (st : store) : option json := st !! k.

(** Modelled from the spec: [kv.set] of the missing [kv_store.tsx],
    writes or replaces the value under a key. *)
Definition set (k : string) (v : json) (st : store) : store := <[k := v]> st.

(** Modelled from the spec: [kv.del] of the missing [kv_store.tsx],
    removes a key. *)
Definition del (k : string) (st : store) : store := delete k st.

(** Modelled from the spec: [kv.getByPrefix] of the missing
    [kv_store.tsx], the rows whose key starts with the prefix. The spec
    leaves their order open ("order not guaranteed"): this is one
    enumeration of them, and nothing says two scans give the same one.
    Where the order of two scans bears on a property, the scans are
    arguments of their own ([attendanceRecordsOf], [todayRecordsOf]). *)
Definition getByPrefix (p : string) (st : store) : list row :=
  List.filter (fun it => String.prefix p (key it))
    ((fun kv => Row kv.1 kv.2) <$> map_to_list st).

End kv.

(** ** Responses *)

Record response := Response { body : json; status : Z }.

(** [c.json(v)] and [c.json(v, code)]. *)
Definition c_json (v : json) : response := Response v 200.
Definition c_json_status (v : json) (code : Z) : response := Response v code.

(** ** [Array.prototype.sort]

    The sort is stable; a comparator result that is positive moves [b]
    before [a], NaN counts as [+0]. With a consistent comparator every
    stable sort returns this list. With an inconsistent one (NaN against
    some elements) ECMAScript leaves the order to the engine, and
    engines differ; the list below is then a permutation of the input
    like every engine's, and nothing more is made of its order. *)
Section Sort.
Context {A : Type} (cmp : A -> A -> option Z).

Definition after (a b : A) : bool :=
  match cmp a b with
  | Some d => Z.ltb 0 d
  | None => false
  end.

Fixpoint sort_insert (x : A) (l : list A) : list A :=
  match l with
  | [] => [x]
  | y :: r => if after x y then y :: sort_insert x r else x :: y :: r
  end.

Fixpoint js_sort (l : list A) : list A :=
  match l with
  | [] => []
  | x :: r => sort_insert x (js_sort r)
  end.

(** A comparator is consistent on the elements of [l] when it orders
    them by a key, largest first. *)
Definition ranked (rank : A -> Z) (l : list A) : Prop :=
  forall x y, In x l -> In y l -> after x y = Z.ltb (rank x) (rank y).

Definition descending (rank : A -> Z) (l : list A) : Prop :=
  StronglySorted (fun a b => rank b <= rank a) l.
End Sort.

(** ** Handlers *)

Section Handlers.
Context {D : JsDate}.

(** [new Date(v).toDateString()] *)
Definition dateString (v : option json) : string :=
  match v ≫= newDate with
  | Some t => toDateString t
  | None => "Invalid Date"
  end.

(** [new Date(r.timestamp).getTime()] *)
Definition getTime (r : json) : option Z := field "timestamp" r ≫= newDate.

(** [(a, b) => new Date(b.timestamp).getTime() - new Date(a.timestamp).getTime()] *)
Definition byTimestampDesc (a b : json) : option Z :=
  match getTime b, getTime a with
  | Some tb, Some ta => Some (tb - ta)
  | _, _ => None
  end.

(** GET /students: [student && student.id && student.name] *)
Definition validStudent (student : json) : bool :=
  truthy student && truthy_opt (field "id" student)
    && truthy_opt (field "name" student).

Definition validStudents (st : store) : list json :=
  List.filter validStudent (value <$> kv.getByPrefix "student:" st).

Definition listStudents (st : store) : response :=
  c_json (obj [("students", JArr (validStudents st))]).

(** POST /students. [tId] is the reading of [Date.now()], [tCreated]
    the one of [new Date()]. *)
Definition newStudent (name email studentNumber : json)
    (country : option json) (tId tCreated : Z) : json :=
  let studentId := "STU" ++ pretty tId in
  obj [("id", JStr studentId);
       ("name", name);
       ("email", email);
       ("studentNumber", studentNumber);
       ("country", if truthy_opt country then default JNull country else JStr "");
       ("qrCode", JStr studentId);
       ("createdAt", JStr (toISOString tCreated))].

Definition createStudent (body : json) (tId tCreated : Z) (st : store)
    : response * store :=
  match destructure body with
  | None =>
      (c_json_status (obj [("error", JStr "Failed to create student")]) 500, st)
  | Some get =>
      match get "name", get "email", get "studentNumber" with
      | Some name, Some email, Some studentNumber =>
          if truthy name && truthy email && truthy studentNumber then
            let student :=
              newStudent name email studentNumber (get "country") tId tCreated in
            (c_json (obj [("student", student)]),
             kv.set ("student:" ++ "STU" ++ pretty tId) student st)
          else
            (c_json_status (obj [("error", JStr "Missing required fields")]) 400, st)
      | _, _, _ =>
          (c_json_status (obj [("error", JStr "Missing required fields")]) 400, st)
      end
  end.

(** PUT /students/:id *)
Definition updateStudent (studentId : string) (body : json) (st : store)
    : response * store :=
  match kv.get ("student:" ++ studentId) st with
  | Some existingStudent =>
      if truthy existingStudent then
        let updatedStudent := JObj (spread body ∪ spread existingStudent) in
        (c_json (obj [("student", updatedStudent)]),
         kv.set ("student:" ++ studentId) updatedStudent st)
      else (c_json_status (obj [("error", JStr "Student not found")]) 404, st)
  | None => (c_json_status (obj [("error", JStr "Student not found")]) 404, st)
  end.

(** DELETE /students/:id *)
Definition studentAttendanceRecords (studentId : string) (st : store) : list row :=
  List.filter
    (fun record => truthy (value record)
       && strictEq (field "studentId" (value record)) (Some (JStr studentId)))
    (kv.getByPrefix "attendance:" st).

(** [for (const record of records) await kv.del(`attendance:${record.value.id}`)]:
    one deletion per record, in order. The key's template literal throws
    on an [id] that has no string form; the loop then ends with the
    deletions made so far ([false]). *)
Fixpoint deleteRecords (records : list row) (st : store) : store * bool :=
  match records with
  | [] => (st, true)
  | record :: rest =>
      match toString_opt (field "id" (value record)) with
      | Some id => deleteRecords rest (kv.del ("attendance:" ++ id) st)
      | None => (st, false)
      end
  end.

Definition deleteStudent (studentId : string) (st : store) : response * store :=
  if truthy_opt (kv.get ("student:" ++ studentId) st) then
    let st1 := kv.del ("student:" ++ studentId) st in
    match deleteRecords (studentAttendanceRecords studentId st1) st1 with
    | (st2, true) =>
        (c_json (obj [("message", JStr "Student deleted successfully")]), st2)
    | (st2, false) =>
        (c_json_status (obj [("error", JStr "Failed to delete student")]) 500, st2)
    end
  else (c_json_status (obj [("error", JStr "Student not found")]) 404, st).

(** [new Date(v)] first converts an object or an array to a primitive,
    which throws exactly when its string conversion does; [newDate] is
    the time value read otherwise. *)
Definition dateThrows (record : json) : bool :=
  match field "timestamp" record with
  | Some v => match toString v with Some _ => false | None => true end
  | None => false
  end.

(** GET /attendance *)
Definition validRecord (record : json) : bool :=
  truthy record && truthy_opt (field "id" record)
    && truthy_opt (field "studentId" record)
    && truthy_opt (field "timestamp" record).

(** The sort calls its comparator on a list of two or more, and then on
    every element of it; the comparator reads both dates. *)
Definition sortThrows (records : list json) : bool :=
  Nat.leb 2 (length records) && existsb dateThrows records.

(** The list of GET /attendance over the rows [scan] that
    [kv.getByPrefix('attendance:')] gave. *)
Definition attendanceRecordsOf (scan : list row) : list json :=
  js_sort byTimestampDesc (List.filter validRecord (value <$> scan)).

Definition listAttendanceOf (scan : list row) : response :=
  if sortThrows (List.filter validRecord (value <$> scan)) then
    c_json_status (obj [("error", JStr "Failed to fetch attendance records")]) 500
  else c_json (obj [("attendanceRecords", JArr (attendanceRecordsOf scan))]).

Definition attendanceRecords (st : store) : list json :=
  attendanceRecordsOf (kv.getByPrefix "attendance:" st).

Definition listAttendance (st : store) : response :=
  listAttendanceOf (kv.getByPrefix "attendance:" st).

(** GET /attendance/today *)
Definition isToday (today : string) (record : json) : bool :=
  String.eqb (dateString (field "timestamp" record)) today.

(** The list of GET /attendance/today over the rows [scan]. *)
Definition todayRecordsOf (tToday : Z) (scan : list row) : list json :=
  let today := toDateString tToday in
  js_sort byTimestampDesc
    (List.filter (fun record => validRecord record && isToday today record)
       (value <$> scan)).

(** The filter reads the date of every record that has the three
    fields. *)
Definition listAttendanceTodayOf (tToday : Z) (scan : list row) : response :=
  if existsb (fun record => validRecord record && dateThrows record)
       (value <$> scan)
  then c_json_status (obj [("error", JStr "Failed to fetch today attendance")]) 500
  else c_json (obj [("attendanceRecords", JArr (todayRecordsOf tToday scan))]).

Definition todayRecords (tToday : Z) (st : store) : list json :=
  todayRecordsOf tToday (kv.getByPrefix "attendance:" st).

Definition listAttendanceToday (tToday : Z) (st : store) : response :=
  listAttendanceTodayOf tToday (kv.getByPrefix "attendance:" st).

(** POST /attendance/checkin *)
Definition checkinStudent (item : row) : bool :=
  truthy (value item) && truthy_opt (field "qrCode" (value item))
    && truthy_opt (field "id" (value item))
    && truthy_opt (field "name" (value item)).

Definition findStudent (qrCode : json) (st : store) : option row :=
  List.find (fun item => strictEq (field "qrCode" (value item)) (Some qrCode))
    (List.filter checkinStudent (kv.getByPrefix "student:" st)).

Definition checkinRecord (record : row) : bool :=
  truthy (value record) && truthy_opt (field "studentId" (value record))
    && truthy_opt (field "timestamp" (value record)).

(** [records.find(record => record.value.studentId === sid &&
       new Date(record.value.timestamp).toDateString() === today)]:
    the rows are visited in order up to the first hit, and the date is
    read of those whose [studentId] is [sid]. The outer [None] is a date
    that throws. *)
Fixpoint findSameDay (sid : option json) (today : string) (records : list row)
    : option (option row) :=
  match records with
  | [] => Some None
  | record :: rest =>
      if strictEq (field "studentId" (value record)) sid then
        if dateThrows (value record) then None
        else if isToday today (value record) then Some (Some record)
        else findSameDay sid today rest
      else findSameDay sid today rest
  end.

Definition findTodayRecord (student : row) (today : string) (st : store)
    : option (option row) :=
  findSameDay (field "id" (value student)) today
    (List.filter checkinRecord (kv.getByPrefix "attendance:" st)).

Definition newAttendanceRecord (student : row) (tId tStamp : Z) : json :=
  obj [("id", JStr ("ATT" ++ pretty tId));
       ("studentId", default JNull (field "id" (value student)));
       ("timestamp", JStr (toISOString tStamp));
       ("status", JStr "present")].

(** [tToday], [tId], [tStamp]: the three clock readings of one call, in
    the order the handler takes them. Whatever throws inside the handler
    ends in its [catch], which answers 500; what was written before
    stays written. *)
Definition checkIn (body : json) (tToday tId tStamp : Z) (st : store)
    : response * store :=
  let failed := c_json_status (obj [("error", JStr "Failed to check in student")]) 500 in
  match destructure body with
  | None => (failed, st)
  | Some get =>
      match get "qrCode" with
      | Some qrCode =>
          if truthy qrCode then
            match findStudent qrCode st with
            | None =>
                (c_json_status (obj [("error", JStr "Student not found")]) 404, st)
            | Some student =>
                let today := toDateString tToday in
                match findTodayRecord student today st with
                | None => (failed, st)
                | Some (Some _) =>
                    match toString_opt (field "name" (value student)) with
                    | Some name =>
                        (c_json_status
                           (obj [("error", JStr "Already checked in");
                                 ("message",
                                  JStr (name ++ " has already checked in today"));
                                 ("student", value student)]) 409, st)
                    | None => (failed, st)
                    end
                | Some None =>
                    let attendanceRecord := newAttendanceRecord student tId tStamp in
                    let st' :=
                      kv.set ("attendance:" ++ "ATT" ++ pretty tId) attendanceRecord st in
                    match toString_opt (field "name" (value student)) with
                    | Some name =>
                        (c_json
                           (obj [("success", JBool true);
                                 ("message", JStr (name ++ " checked in successfully!"));
                                 ("student", value student);
                                 ("attendanceRecord", attendanceRecord)]), st')
                    | None => (failed, st')
                    end
                end
            end
          else (c_json_status (obj [("error", JStr "QR code is required")]) 400, st)
      | None => (c_json_status (obj [("error", JStr "QR code is required")]) 400, st)
      end
  end.

(** POST /init-sample-data. [tick n] is the n-th clock reading of the
    call: five [new Date()] for the students, then three [Date.now()]. *)
Definition sampleStudent (id name email studentNumber country : string)
    (t : Z) : json :=
  obj [("id", JStr id);
       ("name", JStr name);
       ("email", JStr email);
       ("studentNumber", JStr studentNumber);
       ("country", JStr country);
       ("qrCode", JStr id);
       ("createdAt", JStr (toISOString t))].

Definition sampleStudents (tick : nat -> Z) : list json :=
  [sampleStudent "STU001" "Alice Johnson" "alice.johnson@school.edu"
     "2021001" "United States" (tick 0%nat);
   sampleStudent "STU002" "Bob Smith" "bob.smith@school.edu"
     "2021002" "Canada" (tick 1%nat);
   sampleStudent "STU003" "Carol Davis" "carol.davis@school.edu"
     "2021003" "United Kingdom" (tick 2%nat);
   sampleStudent "STU004" "David Wilson" "david.wilson@school.edu"
     "2021004" "Australia" (tick 3%nat);
   sampleStudent "STU005" "Emma Brown" "emma.brown@school.edu"
     "2021005" "Germany" (tick 4%nat)].

Definition sampleRecord (id studentId : string) (t : Z) : json :=
  obj [("id", JStr id);
       ("studentId", JStr studentId);
       ("timestamp", JStr (toISOString t));
       ("status", JStr "present")].

Definition sampleAttendance (tick : nat -> Z) : list json :=
  [sampleRecord "ATT001" "STU001" (tick 5%nat - 2 * 60 * 60 * 1000);
   sampleRecord "ATT002" "STU002" (tick 6%nat - 1 * 60 * 60 * 1000);
   sampleRecord "ATT003" "STU003" (tick 7%nat - 30 * 60 * 1000)].

(** [for (const x of xs) await kv.set(`${prefix}${x.id}`, x)]; [false]
    when a key's template literal throws, with the writes made so far. *)
Fixpoint saveAll (prefix : string) (xs : list json) (st : store) : store * bool :=
  match xs with
  | [] => (st, true)
  | x :: rest =>
      match toString_opt (field "id" x) with
      | Some id => saveAll prefix rest (kv.set (prefix ++ id) x st)
      | None => (st, false)
      end
  end.

Definition initSampleData (tick : nat -> Z) (st : store) : response * store :=
  let failed :=
    c_json_status (obj [("error", JStr "Failed to initialize sample data")]) 500 in
  match kv.getByPrefix "student:" st with
  | _ :: _ => (c_json (obj [("message", JStr "Sample data already exists")]), st)
  | [] =>
      match saveAll "student:" (sampleStudents tick) st with
      | (st1, true) =>
          match saveAll "attendance:" (sampleAttendance tick) st1 with
          | (st2, true) =>
              (c_json (obj [("message", JStr "Sample data initialized successfully")]),
               st2)
          | (st2, false) => (failed, st2)
          end
      | (st1, false) => (failed, st1)
      end
  end.

(** ** The server as a transition system *)

Inductive request :=
  | GetStudents
  | PostStudents (body : json) (tId tCreated : Z)
  | PutStudent (id : string) (body : json)
  | DeleteStudent (id : string)
  | GetAttendance
  | PostCheckin (body : json) (tToday tId tStamp : Z)
  | GetAttendanceToday (tToday : Z)
  | PostInitSampleData (tick : nat -> Z).

Definition handle (r : request) (st : store) : response * store :=
  match r with
  | GetStudents => (listStudents st, st)
  | PostStudents body tId tCreated => createStudent body tId tCreated st
  | PutStudent id body => updateStudent id body st
  | DeleteStudent id => deleteStudent id st
  | GetAttendance => (listAttendance st, st)
  | PostCheckin body tToday tId tStamp => checkIn body tToday tId tStamp st
  | GetAttendanceToday tToday => (listAttendanceToday tToday st, st)
  | PostInitSampleData tick => initSampleData tick st
  end.

(** Stores the server can be in: it starts empty and only the handlers
    write to it. *)
Inductive reachable : store -> Prop :=
  | reachable_empty : reachable ∅
  | reachable_step r st : reachable st -> reachable (handle r st).2.

(** What every stored attendance row looks like in a reachable store:
    it sits under the key made from its own [id], and its timestamp is a
    date. *)
Definition keyed (k : string) (v : json) : Prop :=
  exists id, toString_opt (field "id" v) = Some id /\ k = "attendance:" ++ id.

Definition dated (v : json) : Prop := is_Some (getTime v).

Definition attendance_wf (st : store) : Prop :=
  forall k v, st !! k = Some v -> String.prefix "attendance:" k = true ->
    keyed k v /\ dated v.

(** Every stored attendance row has a timestamp whose date can be read
    (as a date or as [Invalid Date]): no handler throws reading it. *)
Definition readable (st : store) : Prop :=
  forall k v, st !! k = Some v -> String.prefix "attendance:" k = true ->
    dateThrows v = false.

(** A stored attendance row that blocks a check-in of the student whose
    [id] is [sid] on the day [today]. *)
Definition blocks (sid : option json) (today : string) (record : json) : bool :=
  truthy record && truthy_opt (field "studentId" record)
    && truthy_opt (field "timestamp" record)
    && strictEq (field "studentId" record) sid
    && isToday today record.

End Handlers.

(** ** The browser side

    [utils/api.ts] (the request helper and the API objects), the handlers
    of [App.tsx] and the computations of [AttendanceDashboard.tsx]. A
    request is the server's handler applied to the store; what [fetch]
    itself may fail with is left out. *)

(** [s.includes(t)] *)
Fixpoint includes (s t : string) : bool :=
  String.prefix t s ||
  match s with
  | EmptyString => false
  | String _ r => includes r t
  end.

(** [a || b] *)
Definition or_else (a b : option json) : option json :=
  if truthy_opt a then a else b.

(** What [toast.success] and [toast.error] are called with. *)
Inductive toast :=
  | toast_success (message : option json)
  | toast_error (message : string).

Section Client.
Context {D : JsDate}.

(** The text of the engine's TypeError for reading property [p] of [null]. *)
Variable nullRead : string -> string.

(** The text of the engine's TypeError for a value that has no string
    form. *)
Variable cannotConvert : string.

(** The [catch] of [apiRequest]: a TypeError that mentions [fetch] is
    replaced, everything else is thrown on. The result is the message of
    the error that leaves [apiRequest]. *)
Definition rethrown (isTypeError : bool) (message : string) : string :=
  if isTypeError && includes message "fetch"
  then "Network connection failed. Please check your internet connection."
  else message.

(** [throw new Error(v)]: the message is the string form of [v] (empty
    for [undefined]); when [v] has none the constructor throws the
    engine's TypeError in its place. *)
Definition thrownError (v : option json) : string :=
  match v with
  | None => rethrown false ""
  | Some x =>
      match toString x with
      | Some message => rethrown false message
      | None => rethrown true cannotConvert
      end
  end.

(** [apiRequest(endpoint, options)] once [fetch] has answered with [r]:
    [inr] is the returned body, [inl] the message of the thrown error. *)
Definition apiRequest (endpoint : string) (r : response) : string + json :=
  if Z.leb 200 (status r) && Z.leb (status r) 299 then inr (body r)
  else
    let error := body r in
    if Z.eqb (status r) 404 && includes endpoint "/attendance/checkin" then
      inl (rethrown false "Student not found with this QR code")
    else if Z.eqb (status r) 409 && includes endpoint "/attendance/checkin" then
      match error with
      | JNull => inl (rethrown true (nullRead "message"))
      | _ =>
          inl (thrownError
                 (or_else (field "message" error)
                    (Some (JStr "Student already checked in today"))))
      end
    else
      match error with
      | JNull => inl (rethrown true (nullRead "error"))
      | _ =>
          inl (thrownError
                 (or_else (field "error" error)
                    (or_else (field "message" error)
                       (Some (JStr ("Server error: " ++ pretty (status r)))))))
      end.

(** [student && student.id && student.name && student.email] *)
Definition clientValidStudent (student : json) : bool :=
  truthy student && truthy_opt (field "id" student)
    && truthy_opt (field "name" student)
    && truthy_opt (field "email" student).

(** [(response[k] || []).filter(valid)] inside [try], [[]] from the
    [catch]: reading a property of [null] and calling [filter] on what is
    no array both throw. *)
Definition filteredOrEmpty (k : string) (valid : json -> bool)
    (outcome : string + json) : list json :=
  match outcome with
  | inl _ => []
  | inr JNull => []
  | inr response =>
      match or_else (field k response) (Some (JArr [])) with
      | Some (JArr items) => List.filter valid items
      | _ => []
      end
  end.

(** [studentAPI.getAll] over the answer [r] to [GET /students]. *)
Definition studentAPI_getAll (r : response) : list json :=
  filteredOrEmpty "students" clientValidStudent (apiRequest "/students" r).

(** [attendanceAPI.getAll] over the answer [r] to [GET /attendance]. *)
Definition attendanceAPI_getAll (r : response) : list json :=
  filteredOrEmpty "attendanceRecords" validRecord (apiRequest "/attendance" r).

(** [attendanceAPI.getToday] over the answer [r] to [GET /attendance/today]. *)
Definition attendanceAPI_getToday (r : response) : list json :=
  filteredOrEmpty "attendanceRecords" validRecord
    (apiRequest "/attendance/today" r).

(** [attendanceAPI.checkIn] over the answer [r] to [POST /attendance/checkin]. *)
Definition attendanceAPI_checkIn (r : response) : string + json :=
  apiRequest "/attendance/checkin" r.

(** The [catch] of [handleQRScan]. *)
Definition scanFailure (qrCode message : string) : toast :=
  if includes message "Already checked in" then toast_error message
  else if includes message "Student not found" then
    toast_error ("No student found with QR code: " ++ qrCode)
  else toast_error "Failed to check in student. Please try again.".

(** [handleQRScan(qrCode)] against the server store [st], with the
    attendance list [records] in the component's state: the toast shown,
    the list in state afterwards, the store afterwards. *)
Definition handleQRScan (qrCode : string) (tToday tId tStamp : Z)
    (records : list json) (st : store) : toast * list json * store :=
  let answer := checkIn (obj [("qrCode", JStr qrCode)]) tToday tId tStamp st in
  match attendanceAPI_checkIn answer.1 with
  | inr result =>
      let updatedRecords := attendanceAPI_getAll (listAttendance answer.2) in
      match result with
      | JNull => (scanFailure qrCode (nullRead "message"), updatedRecords, answer.2)
      | _ => (toast_success (field "message" result), updatedRecords, answer.2)
      end
  | inl message => (scanFailure qrCode message, records, answer.2)
  end.

(** [prev.filter((record) => record.studentId !== id)] of
    [handleDeleteStudent]; reading [studentId] off a [null] entry throws
    ([None]). *)
Definition dropStudentRecords (id : string) (prev : list json)
    : option (list json) :=
  if forallb (fun record => match record with JNull => false | _ => true end) prev
  then Some (List.filter
               (fun record =>
                  negb (strictEq (field "studentId" record) (Some (JStr id))))
               prev)
  else None.

(** [AttendanceDashboard]: [getRecentRecords()]; [None] when the sort
    throws. *)
Definition getRecentRecords (attendanceRecords : list json)
    : option (list json) :=
  let records :=
    List.filter
      (fun record => truthy record && truthy_opt (field "timestamp" record))
      attendanceRecords in
  if sortThrows records then None
  else Some (take 10 (js_sort byTimestampDesc records)).

(** [AttendanceDashboard], the "Last Check-in" card:
    [attendanceRecords.length > 0
       ? formatTime(attendanceRecords[attendanceRecords.length - 1].timestamp)
       : 'None']. [formatTime] is the platform's [toLocaleTimeString] of the
    date; reading [timestamp] off a [null] entry throws, and so does a
    date that cannot be made ([None]). *)
Definition lastCheckIn (formatTime : option json -> string)
    (attendanceRecords : list json) : option string :=
  match last attendanceRecords with
  | None => Some "None"
  | Some JNull => None
  | Some record =>
      if dateThrows record then None
      else Some (formatTime (field "timestamp" record))
  end.

End Client.

(** [AttendanceDashboard]: the records of today, [today] being read once.
    The calendar day is the one of the browser's time zone, so the
    platform here is the browser's, not the server's. [None] when a date
    cannot be made. *)
Section Dashboard.
Context {B : JsDate}.

Definition dashboardTodayRecords (tNow : Z) (attendanceRecords : list json)
    : option (list json) :=
  let today := toDateString tNow in
  let dateRead record :=
    truthy record && truthy_opt (field "timestamp" record) in
  if existsb (fun record => dateRead record && dateThrows record) attendanceRecords
  then None
  else Some (List.filter (fun record => dateRead record && isToday today record)
               attendanceRecords).

End Dashboard.

(** The runnable calendar satisfies the platform facts. *)
Module EpochDatesFacts.

Lemma parse_iso t : EpochDates.parse (JStr (EpochDates.iso t)) = Some t.
Proof.
  unfold EpochDates.parse, EpochDates.iso.
  rewrite NilEmpty.isi. simpl. by rewrite DecimalZ.of_to.
Qed.

Lemma iso_nonempty t : EpochDates.iso t <> "".
Proof. discriminate. Qed.

Lemma day_valid t : EpochDates.day t <> "Invalid Date".
Proof. discriminate. Qed.

End EpochDatesFacts.

Definition epochDates : JsDate := {|
  newDate := EpochDates.parse;
  toISOString := EpochDates.iso;
  toDateString := EpochDates.day;
  newDate_toISOString := EpochDatesFacts.parse_iso;
  toISOString_nonempty := EpochDatesFacts.iso_nonempty;
  toDateString_valid := EpochDatesFacts.day_valid
|}.

(** ** A small school on the runnable calendar *)
Module Demo.

Definition scan (code : string) : json := obj [("qrCode", JStr code)].

Definition studentX : json :=
  obj [("name", JStr "X"); ("email", JStr "x@y.com"); ("studentNumber", JStr "1")].

Definition studentY : json :=
  obj [("name", JStr "Y"); ("email", JStr "y@y.com"); ("studentNumber", JStr "2")].

(** The fields of the student created from [studentX] at clock reading 1. *)
Definition stu1 : gmap string json :=
  list_to_map
    [("id", JStr "STU1"); ("name", JStr "X"); ("email", JStr "x@y.com");
     ("studentNumber", JStr "1"); ("country", JStr "");
     ("qrCode", JStr "STU1"); ("createdAt", JStr "T1")].

(** One student, [STU1]. *)
Definition one_student : store :=
  (@handle epochDates (PostStudents studentX 1 1) ∅).2.

(** Two students, [STU1] and [STU2]. *)
Definition two_students : store :=
  (@handle epochDates (PostStudents studentY 2 2) one_student).2.

(** [STU1]'s [email] overwritten with [null] by an update. *)
Definition email_nulled : store :=
  (@handle epochDates (PutStudent "STU1" (obj [("email", JNull)])) one_student).2.

(** A student entry stored without any [email] property. *)
Definition no_email : store :=
  {["student:S1" := obj [("id", JStr "S1"); ("name", JStr "A")]]}.

(** [STU2] checked in while the clock read 105. *)
Definition stu2_checked_in : store :=
  (@handle epochDates (PostCheckin (scan "STU2") 105 105 105) two_students).2.

(** An attendance row for [STU1] that has no [id]. *)
Definition record_without_id : json :=
  obj [("studentId", JStr "STU1"); ("timestamp", JStr "T5")].

Definition with_record_without_id : store :=
  <["attendance:X" := record_without_id]> one_student.

(** An attendance row for [STU1] marked [absent]. *)
Definition record_core : gmap string json :=
  list_to_map [("id", JStr "ATT5"); ("studentId", JStr "STU1");
               ("timestamp", JStr "T5")].

Definition with_absent_record : store :=
  <["attendance:ATT5" := JObj (<["status" := JStr "absent"]> record_core)]>
    one_student.

(** A student whose [name] is an object with a [toString] property of
    its own, and the store after its first check-in, at clock reading 5. *)
Definition studentOdd : json :=
  obj [("name", obj [("toString", JNum 1)]); ("email", JStr "o@y.com");
       ("studentNumber", JStr "3")].

Definition odd_name : store :=
  (@handle epochDates (PostStudents studentOdd 1 1) ∅).2.

Definition odd_name_checked_in : store :=
  (@handle epochDates (PostCheckin (scan "STU1") 5 5 5) odd_name).2.

(** [STU2] given the [qrCode] of [STU1] by an update, and the store
    after one check-in with that code, at clock reading 5. *)
Definition shared_code : store :=
  (@handle epochDates (PutStudent "STU2" (obj [("qrCode", JStr "STU1")]))
     two_students).2.

Definition shared_code_checked_in : store :=
  (@handle epochDates (PostCheckin (scan "STU1") 5 5 5) shared_code).2.

(** [STU1] given an object for [id] by an update, and the store after
    one check-in, at clock reading 5. *)
Definition object_id : store :=
  (@handle epochDates (PutStudent "STU1" (obj [("id", obj [("n", JNum 1)])]))
     one_student).2.

Definition object_id_checked_in : store :=
  (@handle epochDates (PostCheckin (scan "STU1") 5 5 5) object_id).2.


(** The sample data, written while the clock read 100000000 and on. *)
Definition tick (n : nat) : Z := 100000000 + Z.of_nat n.

Definition sample : store := (@handle epochDates (PostInitSampleData tick) ∅).2.

End Demo.

(** ** The browser of the small school *)
Module DemoBrowser.

(** The engine's text for reading a property of [null]. *)
Definition nullRead (p : string) : string :=
  "Cannot read properties of null (reading '" ++ p ++ "')".

(** The engine's text for a value that has no string form. *)
Definition cannotConvert : string := "Cannot convert object to primitive value".

(** The first sample record, the earliest of the three. *)
Definition first_sample : json :=
  @sampleRecord epochDates "ATT001" "STU001"
    (Demo.tick 5%nat - 2 * 60 * 60 * 1000).

End DemoBrowser.

(** * Facts about the store and the scans *)

Lemma prefix_app p s : String.prefix p (p ++ s) = true.
Proof.
  induction p as [|c p IH]; simpl; [by destruct s|].
  destruct (ascii_dec c c); [done | congruence].
Qed.

Lemma In_getByPrefix p (st : store) it :
  In it (kv.getByPrefix p st) <->
  st !! key it = Some (value it) /\ String.prefix p (key it) = true.
Proof.
  unfold kv.getByPrefix. rewrite filter_In, <- list_elem_of_In, list_elem_of_fmap.
  split.
  - intros [[[k v] [-> Hin]] Hp]. simpl in *.
    by apply elem_of_map_to_list in Hin.
  - intros [Hl Hp]. split; [|done].
    exists (key it, value it). split; [by destruct it|].
    by apply elem_of_map_to_list.
Qed.

Lemma In_values_getByPrefix p (st : store) v :
  In v (value <$> kv.getByPrefix p st) <->
  exists k, st !! k = Some v /\ String.prefix p k = true.
Proof.
  rewrite <- list_elem_of_In, list_elem_of_fmap. split.
  - intros [it [-> Hin]]. apply list_elem_of_In, In_getByPrefix in Hin.
    by exists (key it).
  - intros [k Hk]. exists (Row k v). split; [done|].
    by apply list_elem_of_In, In_getByPrefix.
Qed.

(** [find] succeeds exactly when some element passes the test. *)
Lemma find_is_Some {A} (f : A -> bool) l x :
  In x l -> f x = true -> exists y, List.find f l = Some y.
Proof.
  intros Hin Hf. destruct (List.find f l) as [y|] eqn:E; [by exists y|].
  by rewrite (find_none _ _ E x Hin) in Hf.
Qed.

Lemma andb_split3 a b c : a && b && c = true -> a = true /\ b = true /\ c = true.
Proof. by destruct a, b, c. Qed.

Section Scans.
Context {D : JsDate}.

(** The student a code resolves to, when exactly one well-formed stored
    student carries it. *)
Lemma findStudent_unique (st : store) k s code :
  st !! k = Some s ->
  String.prefix "student:" k = true ->
  checkinStudent (Row k s) = true ->
  strictEq (field "qrCode" s) (Some code) = true ->
  (forall k' s', st !! k' = Some s' -> String.prefix "student:" k' = true ->
     checkinStudent (Row k' s') = true ->
     strictEq (field "qrCode" s') (Some code) = true -> k' = k) ->
  findStudent code st = Some (Row k s).
Proof.
  intros Hk Hp Hwf Hqr Huniq. unfold findStudent.
  destruct (find_is_Some
    (fun item => strictEq (field "qrCode" (value item)) (Some code))
    (List.filter checkinStudent (kv.getByPrefix "student:" st)) (Row k s))
    as [[k' s'] Hfind]; [|done|].
  { apply filter_In. split; [by apply In_getByPrefix | done]. }
  rewrite Hfind. apply find_some in Hfind as [Hin Hm].
  apply filter_In in Hin as [Hin Hwf']. apply In_getByPrefix in Hin as [Hl' Hp'].
  simpl in *. assert (k' = k) as -> by eauto. congruence.
Qed.

Lemma findStudent_none (st : store) code :
  (forall k s, st !! k = Some s -> String.prefix "student:" k = true ->
     checkinStudent (Row k s) = true ->
     strictEq (field "qrCode" s) (Some code) = false) ->
  findStudent code st = None.
Proof.
  intros Hno. unfold findStudent.
  destruct (List.find _ _) as [[k s]|] eqn:E; [|done].
  apply find_some in E as [Hin Hm]. apply filter_In in Hin as [Hin Hwf].
  apply In_getByPrefix in Hin as [Hl Hp]. simpl in *.
  by rewrite (Hno k s) in Hm.
Qed.

(** The same-day search over rows whose dates can be read: it finds a
    row exactly when one of them matches. *)
Lemma findSameDay_Some sid today records r :
  (forall x, In x records -> dateThrows (value x) = false) ->
  In r records ->
  strictEq (field "studentId" (value r)) sid = true ->
  isToday today (value r) = true ->
  exists found, findSameDay sid today records = Some (Some found).
Proof.
  intros Hread Hin Heq Hday.
  induction records as [|x rest IH]; [done|]. simpl.
  destruct (strictEq (field "studentId" (value x)) sid) eqn:Ex.
  - rewrite (Hread x) by (by left).
    destruct (isToday today (value x)) eqn:Ed; [by eexists|].
    destruct Hin as [-> | Hin]; [congruence|].
    apply IH; [|done]. intros y Hy. apply Hread. by right.
  - destruct Hin as [-> | Hin]; [congruence|].
    apply IH; [|done]. intros y Hy. apply Hread. by right.
Qed.

Lemma findSameDay_None sid today records :
  (forall x, In x records -> dateThrows (value x) = false) ->
  (forall x, In x records ->
     strictEq (field "studentId" (value x)) sid && isToday today (value x) = false) ->
  findSameDay sid today records = Some None.
Proof.
  intros Hread Hno. induction records as [|x rest IH]; [done|]. simpl.
  assert (findSameDay sid today rest = Some None) as ->.
  { apply IH; intros y Hy; [apply Hread | apply Hno]; by right. }
  specialize (Hno x (or_introl eq_refl)).
  rewrite (Hread x) by (by left).
  destruct (strictEq _ sid); [|done]. simpl in Hno. by rewrite Hno.
Qed.

Lemma findTodayRecord_Some (st : store) student today k r :
  readable st ->
  st !! k = Some r -> String.prefix "attendance:" k = true ->
  blocks (field "id" (value student)) today r = true ->
  exists found, findTodayRecord student today st = Some (Some found).
Proof.
  intros Hread Hk Hp Hb. unfold blocks in Hb.
  apply andb_prop in Hb as [Hb Hday]. apply andb_prop in Hb as [Hb Heq].
  unfold findTodayRecord. apply (findSameDay_Some _ _ _ (Row k r)); try done.
  - intros x Hx. apply filter_In in Hx as [Hx _].
    apply In_getByPrefix in Hx as [Hl Hpx]. by apply (Hread (key x)).
  - apply filter_In. split; [by apply In_getByPrefix | done].
Qed.

Lemma findTodayRecord_None (st : store) student today :
  readable st ->
  (forall k r, st !! k = Some r -> String.prefix "attendance:" k = true ->
     blocks (field "id" (value student)) today r = false) ->
  findTodayRecord student today st = Some None.
Proof.
  intros Hread Hno. unfold findTodayRecord. apply findSameDay_None.
  - intros x Hx. apply filter_In in Hx as [Hx _].
    apply In_getByPrefix in Hx as [Hl Hpx]. by apply (Hread (key x)).
  - intros [k r] Hx. apply filter_In in Hx as [Hin Hwf].
    apply In_getByPrefix in Hin as [Hl Hp]. simpl in *.
    specialize (Hno k r Hl Hp). unfold blocks in Hno.
    unfold checkinRecord in Hwf. simpl in Hwf. by rewrite Hwf in Hno.
Qed.

End Scans.

(** * Check-in *)

Section CheckIn.
Context {D : JsDate}.

Lemma newAttendanceRecord_fields student tId tStamp :
  let record := newAttendanceRecord student tId tStamp in
  field "id" record = Some (JStr ("ATT" ++ pretty tId))
  /\ field "studentId" record = Some (default JNull (field "id" (value student)))
  /\ field "timestamp" record = Some (JStr (toISOString tStamp))
  /\ field "status" record = Some (JStr "present")
  /\ field "notes" record = None.
Proof. repeat split; reflexivity. Qed.

Lemma truthy_JStr s : truthy (JStr s) = true <-> s <> "".
Proof.
  simpl. destruct (String.eqb_spec s ""); simpl; split; congruence.
Qed.

Lemma dateString_toISOString t :
  dateString (Some (JStr (toISOString t))) = toDateString t.
Proof. unfold dateString. simpl. by rewrite newDate_toISOString. Qed.

(** The record a check-in writes blocks the same student for the day of
    its timestamp, when the student's [id] is a primitive value (one
    that is [===] to itself after a trip through the store). *)
Lemma newAttendanceRecord_blocks student tId tStamp :
  truthy_opt (field "id" (value student)) = true ->
  strictEq (field "id" (value student)) (field "id" (value student)) = true ->
  blocks (field "id" (value student)) (toDateString tStamp)
    (newAttendanceRecord student tId tStamp) = true.
Proof.
  intros Hid Heq. unfold blocks, isToday.
  destruct (newAttendanceRecord_fields student tId tStamp)
    as (_ & -> & -> & _).
  rewrite dateString_toISOString.
  destruct (field "id" (value student)) as [v|]; [|done]. simpl in *.
  rewrite Hid, Heq, String.eqb_refl.
  destruct (String.eqb_spec (toISOString tStamp) ""); [|done].
  by destruct (toISOString_nonempty tStamp).
Qed.

Lemma dateThrows_newAttendanceRecord student tId tStamp :
  dateThrows (newAttendanceRecord student tId tStamp) = false.
Proof. reflexivity. Qed.

Lemma readable_insert (st : store) k v :
  dateThrows v = false -> readable st -> readable (<[k := v]> st).
Proof.
  intros Hv Hst k' v' Hk' Hp. destruct (decide (k' = k)) as [->|Hne].
  - rewrite lookup_insert_eq in Hk'. congruence.
  - rewrite lookup_insert_ne in Hk' by done. by apply (Hst k').
Qed.

Lemma attendance_key_not_student x :
  String.prefix "student:" ("attendance:" ++ x) = false.
Proof. reflexivity. Qed.

Lemma student_key_not_attendance x :
  String.prefix "attendance:" ("student:" ++ x) = false.
Proof. reflexivity. Qed.

(** Any stored row that blocks the resolved student makes the call
    answer 409 and write nothing, when the student's name has a string
    form. *)
Lemma checkIn_blocked (st : store) o code student name k r tToday tId tStamp :
  o !! "qrCode" = Some code -> truthy code = true ->
  findStudent code st = Some student ->
  toString_opt (field "name" (value student)) = Some name ->
  readable st ->
  st !! k = Some r -> String.prefix "attendance:" k = true ->
  blocks (field "id" (value student)) (toDateString tToday) r = true ->
  checkIn (JObj o) tToday tId tStamp st =
    (c_json_status
       (obj [("error", JStr "Already checked in");
             ("message", JStr (name ++ " has already checked in today"));
             ("student", value student)]) 409, st).
Proof.
  intros Ho Hc Hs Hn Hread Hk Hp Hb. unfold checkIn. simpl. rewrite Ho, Hc, Hs.
  destruct (findTodayRecord_Some st student _ k r Hread Hk Hp Hb) as [found ->].
  by rewrite Hn.
Qed.

Lemma checkIn_fresh (st : store) o code student name tToday tId tStamp :
  o !! "qrCode" = Some code -> truthy code = true ->
  findStudent code st = Some student ->
  toString_opt (field "name" (value student)) = Some name ->
  readable st ->
  (forall k r, st !! k = Some r -> String.prefix "attendance:" k = true ->
     blocks (field "id" (value student)) (toDateString tToday) r = false) ->
  checkIn (JObj o) tToday tId tStamp st =
    (c_json
       (obj [("success", JBool true);
             ("message", JStr (name ++ " checked in successfully!"));
             ("student", value student);
             ("attendanceRecord", newAttendanceRecord student tId tStamp)]),
     kv.set ("attendance:" ++ "ATT" ++ pretty tId)
       (newAttendanceRecord student tId tStamp) st).
Proof.
  intros Ho Hc Hs Hn Hread Hno. unfold checkIn. simpl. rewrite Ho, Hc, Hs.
  by rewrite (findTodayRecord_None st student _ Hread Hno), Hn.
Qed.

(** C1. In a store whose attendance timestamps can be read, a stored
    well-formed student [s] whose [id] is a primitive value and whose
    [name] is a string, the only well-formed student carrying its
    [qrCode], with no attendance row of its own on the day of the call:
    [checkIn] of its code answers 200 and writes exactly one attendance
    row; a second [checkIn] of the same code on the calendar day of that
    row answers 409 "Already checked in" and leaves the store as it
    was. *)
Theorem checkIn_once_per_day (st : store) k s code name o
    tToday tId tStamp tToday' tId' tStamp' :
  st !! k = Some s ->
  String.prefix "student:" k = true ->
  checkinStudent (Row k s) = true ->
  strictEq (field "id" s) (field "id" s) = true ->
  strictEq (field "qrCode" s) (Some code) = true ->
  field "name" s = Some (JStr name) ->
  (forall k' s', st !! k' = Some s' -> String.prefix "student:" k' = true ->
     checkinStudent (Row k' s') = true ->
     strictEq (field "qrCode" s') (Some code) = true -> k' = k) ->
  readable st ->
  (forall k' r, st !! k' = Some r -> String.prefix "attendance:" k' = true ->
     blocks (field "id" s) (toDateString tToday) r = false) ->
  o !! "qrCode" = Some code ->
  toDateString tToday' = toDateString tStamp ->
  let record := newAttendanceRecord (Row k s) tId tStamp in
  let st1 := <["attendance:" ++ "ATT" ++ pretty tId := record]> st in
  checkIn (JObj o) tToday tId tStamp st =
    (c_json
       (obj [("success", JBool true);
             ("message", JStr (name ++ " checked in successfully!"));
             ("student", s);
             ("attendanceRecord", record)]), st1)
  /\ checkIn (JObj o) tToday' tId' tStamp' st1 =
    (c_json_status
       (obj [("error", JStr "Already checked in");
             ("message", JStr (name ++ " has already checked in today"));
             ("student", s)]) 409, st1).
Proof.
  intros Hk Hp Hwf Hid Hqr Hname Huniq Hread Hno Ho Hday record st1.
  assert (truthy code = true /\ truthy_opt (field "id" s) = true) as [Hc Hsid].
  { unfold checkinStudent in Hwf. simpl in Hwf.
    apply andb_prop in Hwf as [Hwf _]. apply andb_prop in Hwf as [Hwf Hi].
    apply andb_prop in Hwf as [_ Hq]. split; [|done].
    destruct (field "qrCode" s) as [q|]; [|done].
    destruct q, code; try done; simpl in *.
    - by apply Bool.eqb_prop in Hqr as <-.
    - by apply Z.eqb_eq in Hqr as <-.
    - by apply String.eqb_eq in Hqr as <-. }
  assert (toString_opt (field "name" (value (Row k s))) = Some name) as Hn.
  { simpl. by rewrite Hname. }
  split.
  - apply (checkIn_fresh st o code (Row k s) name); try done.
    by apply findStudent_unique.
  - assert (k <> "attendance:" ++ "ATT" ++ pretty tId) as Hne.
    { intros ->. by rewrite attendance_key_not_student in Hp. }
    assert (findStudent code st1 = Some (Row k s)) as Hfind.
    { apply findStudent_unique; try done.
      - unfold st1. by rewrite lookup_insert_ne.
      - intros k' s' Hk' Hp'. apply Huniq; [|done].
        unfold st1 in Hk'. rewrite lookup_insert_ne in Hk'; [done|].
        intros <-. by rewrite attendance_key_not_student in Hp'. }
    assert (blocks (field "id" s) (toDateString tToday') record = true) as Hb.
    { rewrite Hday. by apply (newAttendanceRecord_blocks (Row k s)). }
    assert (readable st1) as Hread1.
    { by apply readable_insert. }
    apply (checkIn_blocked st1 o code (Row k s) name
             ("attendance:" ++ "ATT" ++ pretty tId) record
             tToday' tId' tStamp' Ho Hc Hfind Hn Hread1).
    + unfold st1. apply lookup_insert_eq.
    + apply prefix_app.
    + exact Hb.
Qed.

End CheckIn.

(** * The sort *)

Section SortFacts.
Context {A : Type} (cmp : A -> A -> option Z).

Lemma sort_insert_perm x l : sort_insert cmp x l ≡ₚ x :: l.
Proof.
  induction l as [|y r IH]; simpl; [done|].
  destruct (after cmp x y); [|done].
  rewrite IH. apply Permutation_swap.
Qed.

Lemma js_sort_perm l : js_sort cmp l ≡ₚ l.
Proof.
  induction l as [|x r IH]; simpl; [done|].
  by rewrite sort_insert_perm, IH.
Qed.

Lemma In_js_sort x l : In x (js_sort cmp l) <-> In x l.
Proof.
  split; apply Permutation_in; [|symmetry]; apply js_sort_perm.
Qed.

(** From here on the comparator is consistent on the elements at hand. *)
Variable rank : A -> Z.

Local Abbreviation ranked := (ranked cmp rank).
Local Abbreviation descending := (descending rank).

Lemma ranked_cons x l : ranked (x :: l) -> ranked l.
Proof. intros Hr a b Ha Hb. apply Hr; by right. Qed.

Lemma ranked_perm l l' : l ≡ₚ l' -> ranked l -> ranked l'.
Proof.
  intros Hp Hr a b Ha Hb.
  apply Hr; eapply Permutation_in; try eassumption; by symmetry.
Qed.

Lemma sort_insert_descending x l :
  ranked (x :: l) -> descending l -> descending (sort_insert cmp x l).
Proof.
  intros Hr Hs. induction Hs as [|y r Hs IH Hy]; simpl.
  - repeat constructor.
  - rewrite (Hr x y) by (simpl; auto).
    destruct (Z.ltb_spec (rank x) (rank y)) as [Hlt|Hge].
    + constructor.
      * apply IH. intros a b Ha Hb. apply Hr; simpl in *; tauto.
      * apply Forall_forall. intros z Hz.
        apply list_elem_of_In, (Permutation_in _ (sort_insert_perm x r)) in Hz.
        destruct Hz as [<-|Hz]; [lia|].
        rewrite Forall_forall in Hy. by apply Hy, list_elem_of_In.
    + constructor; [by constructor|].
      constructor; [done|].
      eapply Forall_impl; [exact Hy|]. simpl. intros z Hz. lia.
Qed.

Lemma js_sort_descending l : ranked l -> descending (js_sort cmp l).
Proof.
  induction l as [|x r IH]; simpl; intros Hr; [constructor|].
  apply sort_insert_descending.
  - eapply ranked_perm; [|exact Hr]. by rewrite js_sort_perm.
  - apply IH. by eapply ranked_cons.
Qed.

Lemma sort_insert_head x l :
  (forall y, In y l -> after cmp x y = false) -> sort_insert cmp x l = x :: l.
Proof.
  destruct l as [|y r]; simpl; [done|].
  intros Hy. by rewrite Hy by auto.
Qed.

(** Dropping elements from a sorted list and inserting commute. *)
Lemma filter_sort_insert (P : A -> bool) x l :
  ranked (x :: l) -> descending l ->
  List.filter P (sort_insert cmp x l) =
    if P x then sort_insert cmp x (List.filter P l) else List.filter P l.
Proof.
  intros Hr Hs. induction Hs as [|y r Hs IH Hy].
  - simpl. by destruct (P x).
  - assert (ranked (x :: r)) as Hr'.
    { intros a b Ha Hb. apply Hr; simpl in *; tauto. }
    specialize (IH Hr'). cbn [sort_insert].
    destruct (after cmp x y) eqn:Hxy.
    + cbn [List.filter]. rewrite IH.
      destruct (P y), (P x); try done.
      cbn [sort_insert]. by rewrite Hxy.
    + change (List.filter P (x :: y :: r)) with
        (if P x then x :: List.filter P (y :: r) else List.filter P (y :: r)).
      destruct (P x); [|done].
      symmetry. apply sort_insert_head.
      intros z Hz. apply filter_In in Hz as [Hz _].
      rewrite (Hr x z) by (simpl in *; tauto).
      rewrite (Hr x y) in Hxy by (simpl; auto).
      apply Z.ltb_ge in Hxy. apply Z.ltb_ge.
      destruct Hz as [<-|Hz]; [done|].
      rewrite Forall_forall in Hy.
      apply list_elem_of_In, Hy in Hz. lia.
Qed.

(** Filtering a sorted list gives the sort of the filtered list: the
    survivors keep their relative order. *)
Lemma filter_js_sort (P : A -> bool) l :
  ranked l ->
  List.filter P (js_sort cmp l) = js_sort cmp (List.filter P l).
Proof.
  induction l as [|x r IH]; intros Hr; [done|].
  cbn [js_sort List.filter].
  rewrite filter_sort_insert.
  - rewrite IH by (by eapply ranked_cons). by destruct (P x).
  - eapply ranked_perm; [|exact Hr]. by rewrite js_sort_perm.
  - apply js_sort_descending. by eapply ranked_cons.
Qed.

End SortFacts.

Lemma filter_filter_andb {A} (f g : A -> bool) l :
  List.filter g (List.filter f l) = List.filter (fun x => f x && g x) l.
Proof.
  induction l as [|x r IH]; [done|]. simpl.
  destruct (f x); simpl; [|done]. destruct (g x); by rewrite IH.
Qed.

Section CheckInClaims.
Context {D : JsDate}.

Lemma findStudent_checkinStudent code (st : store) student :
  findStudent code st = Some student ->
  checkinStudent student = true
  /\ st !! key student = Some (value student)
  /\ strictEq (field "qrCode" (value student)) (Some code) = true.
Proof.
  unfold findStudent. intros Hf. apply find_some in Hf as [Hin Hm].
  apply filter_In in Hin as [Hin Hwf]. by apply In_getByPrefix in Hin as [Hl _].
Qed.

(** C2, as the handler has it. When no well-formed stored student
    (truthy [qrCode], [id] and [name]) carries the submitted code, the
    call writes nothing; it answers 404 "Student not found" when a code
    was submitted, and 400 "QR code is required" when the code is
    missing or empty. *)
Theorem checkIn_unknown_code (st : store) o tToday tId tStamp :
  (forall k s, st !! k = Some s -> String.prefix "student:" k = true ->
     checkinStudent (Row k s) = true ->
     strictEq (field "qrCode" s) (o !! "qrCode") = false) ->
  checkIn (JObj o) tToday tId tStamp st =
    if truthy_opt (o !! "qrCode")
    then (c_json_status (obj [("error", JStr "Student not found")]) 404, st)
    else (c_json_status (obj [("error", JStr "QR code is required")]) 400, st).
Proof.
  intros Hno. unfold checkIn. simpl.
  destruct (o !! "qrCode") as [code|] eqn:Ho; simpl; [|done].
  destruct (truthy code); [|done].
  by rewrite (findStudent_none st code Hno).
Qed.

(** C5, as the handler has it. Every [checkIn] that answers 200 resolved
    the request's [qrCode] to a student and wrote, under
    [attendance:ATT<tId>], the record it returns with that student: [id]
    is [ATT] followed by the clock reading [tId], [studentId] is the
    resolved student's [id], [timestamp] is the reading [tStamp] in ISO
    form, [status] is [present]. Ids made from different clock readings
    differ; nothing else keeps an id apart from the stored ones. *)
Theorem checkIn_success_record (st : store) req tToday tId tStamp :
  status (checkIn req tToday tId tStamp st).1 = 200 ->
  exists code student record,
    field "qrCode" req = Some code
    /\ findStudent code st = Some student
    /\ field "student" (body (checkIn req tToday tId tStamp st).1)
         = Some (value student)
    /\ field "attendanceRecord" (body (checkIn req tToday tId tStamp st).1)
         = Some record
    /\ (checkIn req tToday tId tStamp st).2
         = <["attendance:" ++ "ATT" ++ pretty tId := record]> st
    /\ field "id" record = Some (JStr ("ATT" ++ pretty tId))
    /\ field "studentId" record = field "id" (value student)
    /\ field "timestamp" record = Some (JStr (toISOString tStamp))
    /\ field "status" record = Some (JStr "present")
    /\ (forall t, t <> tId -> "ATT" ++ pretty t <> "ATT" ++ pretty tId).
Proof.
  unfold checkIn. destruct (destructure req) as [get|] eqn:Hget; [|done].
  assert (get = fun k => field k req) as ->.
  { destruct req; simpl in Hget; by simplify_eq. }
  destruct (field "qrCode" req) as [code|] eqn:Hcode; [|done].
  destruct (truthy code); [|done].
  destruct (findStudent code st) as [student|] eqn:Hs; [|done].
  destruct (findTodayRecord student _ st) as [[found|]|]; [| |done].
  { by destruct (toString_opt _). }
  destruct (toString_opt (field "name" (value student))) as [name|]; [|done].
  intros _.
  exists code, student, (newAttendanceRecord student tId tStamp).
  destruct (newAttendanceRecord_fields student tId tStamp)
    as (Hid & Hsid & Hts & Hstatus & _).
  do 6 (split; [done|]). split; [|split; [done|split; [done|]]].
  - rewrite Hsid. apply findStudent_checkinStudent in Hs as [Hwf _].
    unfold checkinStudent in Hwf.
    apply andb_prop in Hwf as [Hwf _]. apply andb_prop in Hwf as [_ Hwf].
    by destruct (field "id" (value student)).
  - intros t Hne Heq. apply Hne.
    apply (inj pretty). by simplify_eq.
Qed.

Lemma validRecord_id record : validRecord record = true -> field "id" record <> None.
Proof.
  unfold validRecord. intros Hv Hid. rewrite Hid in Hv. simpl in Hv.
  by rewrite andb_false_r in Hv.
Qed.

Lemma In_attendanceRecords (st : store) record :
  In record (attendanceRecords st) <->
  validRecord record = true /\
  exists k, st !! k = Some record /\ String.prefix "attendance:" k = true.
Proof.
  unfold attendanceRecords, attendanceRecordsOf.
  rewrite In_js_sort, filter_In, In_values_getByPrefix. tauto.
Qed.

(** C9. The same-day search tests [studentId] and [timestamp] only. In
    a store whose attendance timestamps can be read, a stored attendance
    row without an [id], which [listAttendance] leaves out, still blocks
    the student it names: for a student whose [name] is a string,
    [checkIn] answers 409 "Already checked in" and writes nothing. *)
Theorem checkIn_blocked_by_record_without_id
    (st : store) o code student name k r tToday tId tStamp :
  o !! "qrCode" = Some code -> truthy code = true ->
  findStudent code st = Some student ->
  field "name" (value student) = Some (JStr name) ->
  readable st ->
  st !! k = Some r -> String.prefix "attendance:" k = true ->
  field "id" r = None ->
  blocks (field "id" (value student)) (toDateString tToday) r = true ->
  ~ In r (attendanceRecords st)
  /\ checkIn (JObj o) tToday tId tStamp st =
       (c_json_status
          (obj [("error", JStr "Already checked in");
                ("message", JStr (name ++ " has already checked in today"));
                ("student", value student)]) 409, st).
Proof.
  intros Ho Hc Hs Hname Hread Hk Hp Hid Hb. split.
  - rewrite In_attendanceRecords. intros [Hv _].
    by apply validRecord_id in Hv.
  - apply (checkIn_blocked st o code student name k r); try done.
    by rewrite Hname.
Qed.

Lemma blocks_status sid today ro sv :
  blocks sid today (JObj (<["status" := sv]> ro)) = blocks sid today (JObj ro).
Proof.
  unfold blocks, isToday, field.
  by rewrite !lookup_insert_ne by done.
Qed.

(** The same-day search never reads [status]. In a store whose
    attendance timestamps can be read, whatever the status [sv] of a
    stored same-day attendance row of the resolved student ([absent] and
    [late] included), [checkIn] answers 409 "Already checked in" and
    writes nothing when the student's [name] is a string. *)
Lemma checkIn_blocked_whatever_status
    (st : store) o code student name k ro sv tToday tId tStamp :
  o !! "qrCode" = Some code -> truthy code = true ->
  findStudent code st = Some student ->
  field "name" (value student) = Some (JStr name) ->
  readable st ->
  st !! k = Some (JObj (<["status" := sv]> ro)) ->
  String.prefix "attendance:" k = true ->
  blocks (field "id" (value student)) (toDateString tToday) (JObj ro) = true ->
  checkIn (JObj o) tToday tId tStamp st =
    (c_json_status
       (obj [("error", JStr "Already checked in");
             ("message", JStr (name ++ " has already checked in today"));
             ("student", value student)]) 409, st).
Proof.
  intros Ho Hc Hs Hname Hread Hk Hp Hb.
  apply (checkIn_blocked st o code student name k
           (JObj (<["status" := sv]> ro)) tToday tId tStamp Ho Hc Hs);
    try done.
  - by rewrite Hname.
  - by rewrite blocks_status.
Qed.

End CheckInClaims.

(** * Students *)

Section Students.
Context {D : JsDate}.

(** C3, as the handler has it. [listStudents] returns exactly the stored
    student values that are truthy and have a truthy [id] and a truthy
    [name]; [email] is not looked at. *)
Theorem listStudents_filter (st : store) student :
  In student (validStudents st) <->
  (exists k, st !! k = Some student /\ String.prefix "student:" k = true)
  /\ truthy student = true
  /\ truthy_opt (field "id" student) = true
  /\ truthy_opt (field "name" student) = true.
Proof.
  unfold validStudents, validStudent.
  rewrite filter_In, In_values_getByPrefix. split.
  - intros [Hk Hv]. by apply andb_split3 in Hv.
  - intros (Hk & -> & -> & ->). by split.
Qed.

(** C4, as the handler has it. [updateStudent] on a stored student
    object keeps the record under its key [student:<id>] and changes no
    other key; the [id] property of the record is the one of the body
    when the body carries an [id], and the stored one otherwise. *)
Theorem updateStudent_id (st : store) studentId req existing :
  st !! ("student:" ++ studentId) = Some (JObj existing) ->
  exists updated,
    updateStudent studentId req st =
      (c_json (obj [("student", updated)]),
       <["student:" ++ studentId := updated]> st)
    /\ field "id" updated =
         match spread req !! "id" with
         | Some v => Some v
         | None => existing !! "id"
         end.
Proof.
  intros Hk. exists (JObj (spread req ∪ existing)).
  unfold updateStudent, kv.get, kv.set. rewrite Hk. simpl. split; [done|].
  rewrite lookup_union. by destruct (spread req !! "id"), (existing !! "id").
Qed.

(** C8. For a request body that is an object: when [name], [email] and
    [studentNumber] are all truthy, [createStudent] answers 200 with the
    student it stored under [student:<id>], whose [id] is [STU]
    followed by the clock reading [tId], whose [qrCode] is that same
    id and whose [createdAt] is the clock reading [tCreated] in ISO
    form; when one of the three is missing or falsy it answers 400
    "Missing required fields" and writes nothing. *)
Theorem createStudent_spec (st : store) o tId tCreated :
  let present k := truthy_opt (o !! k) in
  if present "name" && present "email" && present "studentNumber" then
    exists student,
      createStudent (JObj o) tId tCreated st =
        (c_json (obj [("student", student)]),
         <["student:" ++ "STU" ++ pretty tId := student]> st)
      /\ field "id" student = Some (JStr ("STU" ++ pretty tId))
      /\ field "qrCode" student = field "id" student
      /\ field "createdAt" student = Some (JStr (toISOString tCreated))
      /\ field "name" student = o !! "name"
      /\ field "email" student = o !! "email"
      /\ field "studentNumber" student = o !! "studentNumber"
  else
    createStudent (JObj o) tId tCreated st =
      (c_json_status (obj [("error", JStr "Missing required fields")]) 400, st).
Proof.
  unfold createStudent. simpl.
  destruct (o !! "name") as [name|]; simpl; [|done].
  destruct (o !! "email") as [email|]; simpl; [|by rewrite andb_false_r].
  destruct (o !! "studentNumber") as [studentNumber|]; simpl;
    [|by rewrite andb_false_r].
  destruct (truthy name && truthy email && truthy studentNumber); [|done].
  eexists. split; [reflexivity|]. repeat split; reflexivity.
Qed.

(** A [null] body makes the destructuring throw: the handlers' [catch]
    answers 500 and nothing is written. *)
Lemma createStudent_null_body (st : store) tId tCreated :
  createStudent JNull tId tCreated st =
    (c_json_status (obj [("error", JStr "Failed to create student")]) 500, st).
Proof. reflexivity. Qed.

Lemma checkIn_null_body (st : store) tToday tId tStamp :
  checkIn JNull tToday tId tStamp st =
    (c_json_status (obj [("error", JStr "Failed to check in student")]) 500, st).
Proof. reflexivity. Qed.

End Students.

(** * Reachable stores *)

Section Reachable.
Context {D : JsDate}.

Lemma attendance_wf_insert_student (st : store) x v :
  attendance_wf st -> attendance_wf (<["student:" ++ x := v]> st).
Proof.
  intros Hwf k r Hk Hp. apply (Hwf k r); [|done].
  rewrite lookup_insert_ne in Hk; [done|].
  intros <-. by rewrite student_key_not_attendance in Hp.
Qed.

Lemma attendance_wf_insert_record (st : store) k v :
  keyed k v -> dated v -> attendance_wf st -> attendance_wf (<[k := v]> st).
Proof.
  intros Hkey Hdate Hwf k' r Hk Hp.
  destruct (decide (k = k')) as [<-|Hne].
  - rewrite lookup_insert_eq in Hk. by simplify_eq.
  - rewrite lookup_insert_ne in Hk by done. by apply Hwf.
Qed.

Lemma attendance_wf_delete (st : store) k :
  attendance_wf st -> attendance_wf (delete k st).
Proof.
  intros Hwf k' r Hk Hp. apply lookup_delete_Some in Hk as [_ Hk]. by apply Hwf.
Qed.

Lemma attendance_wf_deleteRecords records (st : store) :
  attendance_wf st -> attendance_wf (deleteRecords records st).1.
Proof.
  revert st. induction records as [|r rs IH]; intros st Hwf; [done|]. simpl.
  destruct (toString_opt _) as [id|]; [|done].
  apply IH. by apply attendance_wf_delete.
Qed.

Lemma attendance_wf_save_students xs (st : store) :
  attendance_wf st -> attendance_wf (saveAll "student:" xs st).1.
Proof.
  revert st. induction xs as [|x xs IH]; intros st Hwf; [done|]. simpl.
  destruct (toString_opt _) as [id|]; [|done].
  apply IH. by apply attendance_wf_insert_student.
Qed.

Lemma attendance_wf_save_records xs (st : store) :
  Forall dated xs -> attendance_wf st ->
  attendance_wf (saveAll "attendance:" xs st).1.
Proof.
  intros Hxs. revert st. induction Hxs as [|x xs Hx Hxs IH]; intros st Hwf; [done|].
  simpl. destruct (toString_opt _) as [id|] eqn:Hid; [|done].
  apply IH. apply attendance_wf_insert_record; [by exists id | done | done].
Qed.

Lemma dated_newAttendanceRecord student tId tStamp :
  dated (newAttendanceRecord student tId tStamp).
Proof.
  unfold dated, getTime.
  destruct (newAttendanceRecord_fields student tId tStamp) as (_ & _ & -> & _).
  simpl. by rewrite newDate_toISOString.
Qed.

Lemma dated_sampleRecord id studentId t : dated (sampleRecord id studentId t).
Proof.
  unfold dated, getTime.
  change (field "timestamp" (sampleRecord id studentId t))
    with (Some (JStr (toISOString t))).
  simpl. by rewrite newDate_toISOString.
Qed.

Lemma attendance_wf_handle r (st : store) :
  attendance_wf st -> attendance_wf (handle r st).2.
Proof.
  intros Hwf. destruct r as [|req tId tCreated|id req|id| |req tToday tId tStamp| |tick];
    cbn [handle snd]; try done.
  - unfold createStudent. destruct (destructure req) as [get|]; [|done].
    destruct (get "name"), (get "email"), (get "studentNumber"); try done.
    destruct (_ && _); [|done]. by apply attendance_wf_insert_student.
  - unfold updateStudent. destruct (kv.get _ st) as [existing|]; [|done].
    destruct (truthy existing); [|done]. by apply attendance_wf_insert_student.
  - unfold deleteStudent. destruct (truthy_opt _); [|done].
    pose proof (attendance_wf_deleteRecords
      (studentAttendanceRecords id (kv.del ("student:" ++ id) st))
      (kv.del ("student:" ++ id) st) (attendance_wf_delete st _ Hwf)) as Hdel.
    by destruct (deleteRecords _ _) as [st2 []].
  - unfold checkIn. destruct (destructure req) as [get|]; [|done].
    destruct (get "qrCode") as [code|]; [|done].
    destruct (truthy code); [|done].
    destruct (findStudent code st) as [student|]; [|done].
    destruct (findTodayRecord student _ st) as [[found|]|]; [| |done].
    { by destruct (toString_opt _). }
    assert (attendance_wf
              (kv.set ("attendance:" ++ "ATT" ++ pretty tId)
                 (newAttendanceRecord student tId tStamp) st)) as Hset.
    { apply attendance_wf_insert_record; [|apply dated_newAttendanceRecord|done].
      by exists ("ATT" ++ pretty tId). }
    by destruct (toString_opt _).
  - unfold initSampleData. destruct (kv.getByPrefix _ st); [|done].
    pose proof (attendance_wf_save_students (sampleStudents tick) st Hwf) as H1.
    destruct (saveAll "student:" _ st) as [st1 []]; [|done].
    assert (Forall dated (sampleAttendance tick)) as Hd.
    { repeat constructor; apply dated_sampleRecord. }
    pose proof (attendance_wf_save_records (sampleAttendance tick) st1 Hd H1) as H2.
    by destruct (saveAll "attendance:" _ st1) as [st2 []].
Qed.

Lemma reachable_attendance_wf (st : store) : reachable st -> attendance_wf st.
Proof.
  induction 1 as [|r st _ IH].
  - intros k v Hk. by rewrite lookup_empty in Hk.
  - by apply attendance_wf_handle.
Qed.

Lemma dated_truthy v : dated v -> truthy v = true.
Proof. unfold dated, getTime. intros [t Ht]. by destruct v. Qed.

(** What the cascade loop leaves in the store: nothing new, whatever it
    ends with; and when every [id] has a string form, it completes and
    removes exactly the keys made from them. *)
Lemma lookup_deleteRecords_sub records (st : store) k v :
  (deleteRecords records st).1 !! k = Some v -> st !! k = Some v.
Proof.
  revert st. induction records as [|r rs IH]; intros st; [done|]. simpl.
  destruct (toString_opt _) as [id|]; [|done].
  intros Hk. apply IH in Hk. unfold kv.del in Hk.
  by apply lookup_delete_Some in Hk as [_ Hk].
Qed.

Lemma lookup_deleteStudent_sub studentId (st : store) k v :
  (deleteStudent studentId st).2 !! k = Some v ->
  st !! k = Some v
  /\ (truthy_opt (st !! ("student:" ++ studentId)) = true ->
      k <> "student:" ++ studentId).
Proof.
  unfold deleteStudent, kv.get.
  destruct (truthy_opt (st !! ("student:" ++ studentId))); [|done].
  intros Hk.
  assert ((deleteRecords
             (studentAttendanceRecords studentId (kv.del ("student:" ++ studentId) st))
             (kv.del ("student:" ++ studentId) st)).1 !! k = Some v) as Hk'.
  { by destruct (deleteRecords _ _) as [st2 []]. }
  apply lookup_deleteRecords_sub in Hk'. unfold kv.del in Hk'.
  apply lookup_delete_Some in Hk' as [Hne Hk']. split; [done|]. by intros _ ->.
Qed.

Lemma lookup_deleteRecords records (st : store) k v :
  (forall r, In r records -> is_Some (toString_opt (field "id" (value r)))) ->
  (deleteRecords records st).2 = true
  /\ ((deleteRecords records st).1 !! k = Some v <->
      st !! k = Some v /\
      forall r id, In r records ->
        toString_opt (field "id" (value r)) = Some id -> k <> "attendance:" ++ id).
Proof.
  revert st. induction records as [|r rs IH]; intros st Hids.
  - simpl. split; [done|]. split; [by intros ?; split | by intros [? _]].
  - simpl. destruct (Hids r (or_introl eq_refl)) as [id Hid]. rewrite Hid.
    destruct (IH (kv.del ("attendance:" ++ id) st)) as [Hdone Hiff].
    { intros r' Hr'. apply Hids. by right. }
    split; [done|]. rewrite Hiff. unfold kv.del. rewrite lookup_delete_Some. split.
    + intros [[Hne Hk] Hrs]. split; [done|].
      intros r' id' [<-|Hin] Hid'; [congruence | by apply (Hrs r')].
    + intros [Hk Hrs]. split; [split; [|done] |].
      * intros Heq. by apply (Hrs r id); [left| |].
      * intros r' id' Hin. apply Hrs. by right.
Qed.

Lemma studentAttendanceRecords_keyed (st : store) studentId r :
  attendance_wf st ->
  In r (studentAttendanceRecords studentId (kv.del ("student:" ++ studentId) st)) ->
  st !! key r = Some (value r) /\ String.prefix "attendance:" (key r) = true
  /\ keyed (key r) (value r)
  /\ strictEq (field "studentId" (value r)) (Some (JStr studentId)) = true.
Proof.
  intros Hwf Hin. apply filter_In in Hin as [Hin Hm].
  apply In_getByPrefix in Hin as [Hl Hp]. unfold kv.del in Hl.
  apply lookup_delete_Some in Hl as [_ Hl].
  destruct (Hwf _ _ Hl Hp) as [Hkey _].
  by apply andb_prop in Hm as [_ Hm].
Qed.

(** On a store whose attendance rows sit under the keys made from their
    ids the cascade completes and the call answers 200. *)
Lemma deleteStudent_ok (st : store) studentId :
  attendance_wf st ->
  truthy_opt (st !! ("student:" ++ studentId)) = true ->
  deleteStudent studentId st =
    (c_json (obj [("message", JStr "Student deleted successfully")]),
     (deleteStudent studentId st).2).
Proof.
  intros Hwf Hs. unfold deleteStudent, kv.get. rewrite Hs.
  destruct (lookup_deleteRecords
    (studentAttendanceRecords studentId (kv.del ("student:" ++ studentId) st))
    (kv.del ("student:" ++ studentId) st) "" JNull) as [Hdone _].
  { intros r Hin.
    destruct (studentAttendanceRecords_keyed st studentId r Hwf Hin)
      as (_ & _ & [id [Hid _]] & _). by exists id. }
  destruct (deleteRecords _ _) as [st2 b]. simpl in Hdone. by rewrite Hdone.
Qed.

Lemma deleteStudent_store (st : store) studentId k v :
  attendance_wf st ->
  truthy_opt (st !! ("student:" ++ studentId)) = true ->
  (deleteStudent studentId st).2 !! k = Some v <->
  st !! k = Some v
  /\ k <> "student:" ++ studentId
  /\ ~ (String.prefix "attendance:" k = true
        /\ strictEq (field "studentId" v) (Some (JStr studentId)) = true).
Proof.
  intros Hwf Hs.
  assert ((deleteStudent studentId st).2 =
          (deleteRecords
             (studentAttendanceRecords studentId (kv.del ("student:" ++ studentId) st))
             (kv.del ("student:" ++ studentId) st)).1) as ->.
  { unfold deleteStudent, kv.get. rewrite Hs. by destruct (deleteRecords _ _) as [? []]. }
  destruct (lookup_deleteRecords
    (studentAttendanceRecords studentId (kv.del ("student:" ++ studentId) st))
    (kv.del ("student:" ++ studentId) st) k v) as [_ ->].
  { intros r Hin.
    destruct (studentAttendanceRecords_keyed st studentId r Hwf Hin)
      as (_ & _ & [id [Hid _]] & _). by exists id. }
  unfold kv.del at 1. rewrite lookup_delete_Some. split.
  - intros [[Hne Hk] Hrs]. split; [done|]. split; [done|].
    intros [Hp Hm]. destruct (Hwf k v Hk Hp) as [[id [Hid Hkey]] Hdate].
    apply (Hrs (Row k v) id); [|done|done].
    apply filter_In. split.
    + apply In_getByPrefix. split; [|done]. simpl. by apply lookup_delete_Some.
    + simpl. by rewrite (dated_truthy v Hdate), Hm.
  - intros (Hk & Hne & Hnot). split; [done|].
    intros [k' r] id Hin Hid Heq.
    destruct (studentAttendanceRecords_keyed st studentId _ Hwf Hin)
      as (Hl & Hp & [id' [Hid' Hkey]] & Hm). simpl in *.
    assert (k' = k) as -> by congruence. assert (r = v) as -> by congruence.
    apply Hnot. by split.
Qed.

(** C6. In every reachable store: when [student:<id>] holds a student,
    [deleteStudent id] answers 200 and removes that key together with
    every attendance row whose [studentId] is [id], and nothing else, so
    that [listAttendance] afterwards has no record of that student; when
    the key holds nothing, it answers 404 "Student not found" and writes
    nothing. *)
Theorem deleteStudent_cascade (st : store) studentId :
  reachable st ->
  if truthy_opt (st !! ("student:" ++ studentId)) then
    exists st',
      deleteStudent studentId st =
        (c_json (obj [("message", JStr "Student deleted successfully")]), st')
      /\ st' !! ("student:" ++ studentId) = None
      /\ (forall k v, st' !! k = Some v <->
            st !! k = Some v
            /\ k <> "student:" ++ studentId
            /\ ~ (String.prefix "attendance:" k = true
                  /\ strictEq (field "studentId" v) (Some (JStr studentId)) = true))
      /\ (forall record, In record (attendanceRecords st') ->
            strictEq (field "studentId" record) (Some (JStr studentId)) = false)
  else
    deleteStudent studentId st =
      (c_json_status (obj [("error", JStr "Student not found")]) 404, st).
Proof.
  intros Hreach. apply reachable_attendance_wf in Hreach.
  destruct (truthy_opt (st !! ("student:" ++ studentId))) eqn:Hs.
  - exists (deleteStudent studentId st).2.
    pose proof (fun k v => deleteStudent_store st studentId k v Hreach Hs) as Hst.
    split; [|split; [|split; [exact Hst|]]].
    + by apply deleteStudent_ok.
    + destruct ((deleteStudent studentId st).2 !! ("student:" ++ studentId))
        as [v|] eqn:Hk; [|done].
      apply Hst in Hk as (_ & Hne & _). done.
    + intros record Hin. apply In_attendanceRecords in Hin as [_ [k [Hk Hp]]].
      apply Hst in Hk as (_ & _ & Hnot).
      destruct (strictEq _ _) eqn:E; [|done]. by destruct Hnot.
  - unfold deleteStudent, kv.get. by rewrite Hs.
Qed.

(** When the records at hand all carry a date, the comparator orders
    them by time, latest first. *)
Lemma byTimestampDesc_ranked (l : list json) :
  (forall record, In record l -> is_Some (getTime record)) ->
  ranked byTimestampDesc (fun r => default 0 (getTime r)) l.
Proof.
  intros Hd x y Hx Hy. destruct (Hd x Hx) as [tx Htx], (Hd y Hy) as [ty Hty].
  unfold after, byTimestampDesc. rewrite Htx, Hty. simpl.
  destruct (Z.ltb_spec 0 (ty - tx)), (Z.ltb_spec tx ty); done || lia.
Qed.

Lemma filter_Permutation {A} (f : A -> bool) l l' :
  l ≡ₚ l' -> List.filter f l ≡ₚ List.filter f l'.
Proof.
  induction 1 as [|x l l' _ IH|x y l|l l' l'' _ IH1 _ IH2]; simpl.
  - done.
  - destruct (f x); by rewrite IH.
  - destruct (f x), (f y); try done. apply perm_swap.
  - by rewrite IH1.
Qed.



(** Whatever the store holds, the two lists have the same members. *)
Lemma todayRecords_members (st : store) tToday record :
  In record (todayRecords tToday st) <->
  In record (List.filter (isToday (toDateString tToday)) (attendanceRecords st)).
Proof.
  unfold todayRecords, todayRecordsOf, attendanceRecords, attendanceRecordsOf.
  rewrite In_js_sort, !filter_In, In_js_sort, filter_In, andb_true_iff. tauto.
Qed.

Lemma reachable_records_dated (st : store) record :
  reachable st -> In record (attendanceRecords st) -> is_Some (getTime record).
Proof.
  intros Hreach Hin. apply reachable_attendance_wf in Hreach.
  apply In_attendanceRecords in Hin as [_ [k [Hk Hp]]].
  by destruct (Hreach k record Hk Hp) as [_ Hdate].
Qed.

Lemma existsb_false_forall {A} (f : A -> bool) l :
  existsb f l = false <-> forall x, In x l -> f x = false.
Proof.
  induction l as [|x r IH]; simpl.
  - split; [by intros _ ? [] | done].
  - rewrite orb_false_iff, IH. split.
    + intros [Hx Hr] y [<-|Hy]; [done | by apply Hr].
    + intros H. split; [apply H; by left | intros y Hy; apply H; by right].
Qed.

(** The two listing handlers answer 200 with their lists when no date
    that they read throws. *)
Lemma listAttendanceOf_ok (scan : list row) :
  (forall record, In record (value <$> scan) -> validRecord record = true ->
     dateThrows record = false) ->
  listAttendanceOf scan =
    c_json (obj [("attendanceRecords", JArr (attendanceRecordsOf scan))]).
Proof.
  intros Hread. unfold listAttendanceOf, sortThrows.
  assert (existsb dateThrows (List.filter validRecord (value <$> scan)) = false)
    as ->; [|by rewrite andb_false_r].
  apply existsb_false_forall. intros x Hx. apply filter_In in Hx as [Hx Hv].
  by apply Hread.
Qed.

Lemma listAttendanceTodayOf_ok tToday (scan : list row) :
  (forall record, In record (value <$> scan) -> validRecord record = true ->
     dateThrows record = false) ->
  listAttendanceTodayOf tToday scan =
    c_json (obj [("attendanceRecords", JArr (todayRecordsOf tToday scan))]).
Proof.
  intros Hread. unfold listAttendanceTodayOf.
  assert (existsb (fun record => validRecord record && dateThrows record)
            (value <$> scan) = false) as ->; [|done].
  apply existsb_false_forall. intros x Hx.
  destruct (validRecord x) eqn:Hv; [|done]. by apply Hread.
Qed.


End Reachable.

(** * The claims at concrete inputs *)

Lemma store_rows (st : store) (l : list (string * json)) :
  map_to_list st = l -> forall k v, st !! k = Some v -> In (k, v) l.
Proof.
  intros <- k v Hk. by apply list_elem_of_In, elem_of_map_to_list.
Qed.

Lemma one_student_rows k v :
  Demo.one_student !! k = Some v -> k = "student:STU1" /\ v = JObj Demo.stu1.
Proof.
  intros Hk.
  apply (store_rows _ [("student:STU1", JObj Demo.stu1)]) in Hk; [|by vm_compute].
  destruct Hk as [Hk|[]]. by simplify_eq.
Qed.

Lemma readable_rows (st : store) :
  forallb (fun kv => negb (String.prefix "attendance:" kv.1) || negb (dateThrows kv.2))
    (map_to_list st) = true ->
  readable st.
Proof.
  intros Hall k v Hk Hp. rewrite forallb_forall in Hall.
  specialize (Hall (k, v)). simpl in Hall. rewrite Hp in Hall. simpl in Hall.
  apply negb_true_iff, Hall. by apply list_elem_of_In, elem_of_map_to_list.
Qed.

(** [STU1] checks in at readings 100..102 and again at 200..202, the
    same day. *)
Lemma checkIn_once_per_day_witness :
  let record :=
    @newAttendanceRecord epochDates (Row "student:STU1" (JObj Demo.stu1)) 101 102 in
  let st1 := <["attendance:" ++ "ATT" ++ pretty 101 := record]> Demo.one_student in
  @checkIn epochDates (Demo.scan "STU1") 100 101 102 Demo.one_student =
    (c_json
       (obj [("success", JBool true);
             ("message", JStr ("X" ++ " checked in successfully!"));
             ("student", JObj Demo.stu1);
             ("attendanceRecord", record)]), st1)
  /\ @checkIn epochDates (Demo.scan "STU1") 200 201 202 st1 =
    (c_json_status
       (obj [("error", JStr "Already checked in");
             ("message", JStr ("X" ++ " has already checked in today"));
             ("student", JObj Demo.stu1)]) 409, st1).
Proof.
  apply (@checkIn_once_per_day epochDates Demo.one_student "student:STU1"
           (JObj Demo.stu1) (JStr "STU1") "X" (list_to_map [("qrCode", JStr "STU1")])
           100 101 102 200 201 202).
  - vm_compute. reflexivity.
  - reflexivity.
  - vm_compute. reflexivity.
  - vm_compute. reflexivity.
  - vm_compute. reflexivity.
  - vm_compute. reflexivity.
  - intros k' s' Hk' _ _ _. apply one_student_rows in Hk'. exact (proj1 Hk').
  - apply readable_rows. vm_compute. reflexivity.
  - intros k' r Hk' Hp. apply one_student_rows in Hk'. destruct Hk' as [Hk' _].
    rewrite Hk' in Hp. discriminate Hp.
  - vm_compute. reflexivity.
  - vm_compute. reflexivity.
Defined.

(** C1 fails where an update has been at work. Once [STU2] has been
    given the [qrCode] of [STU1], the code resolves to one of the two
    students: after one check-in with it, a stored well-formed student
    carrying the code has no attendance row at all, and the check-in of
    that code is answered 409 all the same. And once [STU1] has been
    given an object for [id], the row of its first check-in carries that
    [id] as [studentId], yet no stored row ever is [===] to it: the
    second check-in of the day answers 200 and writes a second row. *)
Lemma checkIn_once_per_day_needs_own_code :
  (let st := Demo.shared_code_checked_in in
   let result := @checkIn epochDates (Demo.scan "STU1") 6 6 6 st in
   @reachable epochDates st
   /\ (exists k s,
         st !! k = Some s /\ String.prefix "student:" k = true
         /\ checkinStudent (Row k s) = true
         /\ field "qrCode" s = Some (JStr "STU1")
         /\ (forall r, In r (value <$> kv.getByPrefix "attendance:" st) ->
               field "studentId" r <> field "id" s))
   /\ status result.1 = 409 /\ result.2 = st)
  /\ (let st := Demo.object_id_checked_in in
      let result := @checkIn epochDates (Demo.scan "STU1") 6 6 6 st in
      @reachable epochDates st
      /\ (exists s r,
            st !! "student:STU1" = Some s /\ st !! "attendance:ATT5" = Some r
            /\ field "qrCode" s = Some (JStr "STU1")
            /\ field "studentId" r = field "id" s
            /\ @isToday epochDates (@toDateString epochDates 6) r = true)
      /\ status result.1 = 200
      /\ result.2 <> st
      /\ length (kv.getByPrefix "attendance:" result.2) = 2%nat).
Proof.
  split.
  - split; [do 4 apply reachable_step; apply reachable_empty|].
    split; [|by vm_compute].
    exists "student:STU2",
      (default JNull (Demo.shared_code_checked_in !! "student:STU2")).
    split; [by vm_compute|]. split; [done|]. split; [by vm_compute|].
    split; [by vm_compute|].
    intros r Hr.
    assert (value <$> kv.getByPrefix "attendance:" Demo.shared_code_checked_in
            = [@newAttendanceRecord epochDates
                 (Row "student:STU1" (JObj Demo.stu1)) 5 5]) as Hrows
      by (by vm_compute).
    rewrite Hrows in Hr. destruct Hr as [<-|[]]. by vm_compute.
  - split; [do 3 apply reachable_step; apply reachable_empty|].
    split.
    + exists (default JNull (Demo.object_id_checked_in !! "student:STU1")),
        (default JNull (Demo.object_id_checked_in !! "attendance:ATT5")).
      repeat split; by vm_compute.
    + split; [by vm_compute|]. split; [|by vm_compute].
      intros Heq.
      assert ((@checkIn epochDates (Demo.scan "STU1") 6 6 6
                 Demo.object_id_checked_in).2 !! "attendance:ATT6"
              = Demo.object_id_checked_in !! "attendance:ATT6") as Habs
        by (by rewrite Heq).
      vm_compute in Habs. discriminate Habs.
Qed.

(** C2 fails for the empty code: no well-formed student carries it, and
    the answer is 400, not 404. *)
Lemma checkIn_empty_code_is_400 :
  (forall k s, Demo.one_student !! k = Some s ->
     String.prefix "student:" k = true -> checkinStudent (Row k s) = true ->
     strictEq (field "qrCode" s) (Some (JStr "")) = false)
  /\ @checkIn epochDates (Demo.scan "") 100 101 102 Demo.one_student =
       (c_json_status (obj [("error", JStr "QR code is required")]) 400,
        Demo.one_student)
  /\ status (@checkIn epochDates (Demo.scan "") 100 101 102 Demo.one_student).1
       <> 404.
Proof.
  split; [|split].
  - intros k s Hk _ _. apply one_student_rows in Hk as [_ ->]. by vm_compute.
  - by vm_compute.
  - by vm_compute.
Qed.

(** A code no student carries. *)
Lemma checkIn_unknown_code_witness :
  @checkIn epochDates (Demo.scan "STU999") 100 101 102 Demo.one_student =
    (c_json_status (obj [("error", JStr "Student not found")]) 404,
     Demo.one_student).
Proof.
  refine (@checkIn_unknown_code epochDates Demo.one_student
            (list_to_map [("qrCode", JStr "STU999")]) 100 101 102 _).
  intros k s Hk _ _. apply one_student_rows in Hk. destruct Hk as [_ Hs].
  rewrite Hs. vm_compute. reflexivity.
Defined.

(** C3 fails: after a create and an update the list has an entry whose
    [email] is [null]; and an entry stored without [email] is listed too. *)
Lemma listStudents_keeps_student_without_email :
  (@reachable epochDates Demo.email_nulled
   /\ exists student, In student (validStudents Demo.email_nulled)
        /\ field "email" student = Some JNull
        /\ truthy_opt (field "email" student) = false)
  /\ (exists student, In student (validStudents Demo.no_email)
        /\ field "email" student = None).
Proof.
  split.
  - split; [apply reachable_step, reachable_step, reachable_empty|].
    eexists. split; [vm_compute; left; reflexivity|]. by vm_compute.
  - eexists. split; [vm_compute; left; reflexivity|]. by vm_compute.
Qed.

(** C4 fails: an update whose body carries an [id] replaces the stored one. *)
Lemma updateStudent_overwrites_id :
  let req := obj [("id", JStr "STU2")] in
  let result := updateStudent "STU1" req Demo.one_student in
  field "id" <$> Demo.one_student !! "student:STU1" = Some (Some (JStr "STU1"))
  /\ status result.1 = 200
  /\ field "id" <$> result.2 !! "student:STU1" = Some (Some (JStr "STU2")).
Proof. by vm_compute. Qed.

(** An update of the name alone. *)
Lemma updateStudent_id_witness :
  exists updated,
    updateStudent "STU1" (obj [("name", JStr "Z")]) Demo.one_student =
      (c_json (obj [("student", updated)]),
       <["student:" ++ "STU1" := updated]> Demo.one_student)
    /\ field "id" updated =
         match spread (obj [("name", JStr "Z")]) !! "id" with
         | Some v => Some v
         | None => Demo.stu1 !! "id"
         end.
Proof.
  apply (updateStudent_id Demo.one_student "STU1" (obj [("name", JStr "Z")])
           Demo.stu1).
  vm_compute. reflexivity.
Defined.

(** C5 fails on freshness: [STU1] checks in at the clock reading at which
    [STU2] did; the call answers 200 with an id a stored record already
    has, and that record is overwritten. *)
Lemma checkIn_reuses_id :
  let st := Demo.stu2_checked_in in
  let result := @checkIn epochDates (Demo.scan "STU1") 105 105 105 st in
  @reachable epochDates st
  /\ status result.1 = 200
  /\ exists old new,
       st !! "attendance:ATT105" = Some old
       /\ field "studentId" old = Some (JStr "STU2")
       /\ field "attendanceRecord" (body result.1) = Some new
       /\ field "id" new = field "id" old
       /\ field "studentId" new = Some (JStr "STU1")
       /\ result.2 !! "attendance:ATT105" = Some new
       /\ length (@attendanceRecords epochDates st) = 1%nat
       /\ length (@attendanceRecords epochDates result.2) = 1%nat.
Proof.
  split; [apply reachable_step, reachable_step, reachable_step, reachable_empty|].
  split; [by vm_compute|].
  eexists _, _. split; [vm_compute; reflexivity|].
  split; [by vm_compute|]. split; [vm_compute; reflexivity|].
  repeat split; by vm_compute.
Qed.

(** A first check-in of [STU1]. *)
Lemma checkIn_success_record_witness :
  exists code student record,
    field "qrCode" (Demo.scan "STU1") = Some code
    /\ findStudent code Demo.one_student = Some student
    /\ field "student"
         (body (@checkIn epochDates (Demo.scan "STU1") 100 101 102 Demo.one_student).1)
         = Some (value student)
    /\ field "attendanceRecord"
         (body (@checkIn epochDates (Demo.scan "STU1") 100 101 102 Demo.one_student).1)
         = Some record
    /\ (@checkIn epochDates (Demo.scan "STU1") 100 101 102 Demo.one_student).2
         = <["attendance:" ++ "ATT" ++ pretty 101 := record]> Demo.one_student
    /\ field "id" record = Some (JStr ("ATT" ++ pretty 101))
    /\ field "studentId" record = field "id" (value student)
    /\ field "timestamp" record = Some (JStr (@toISOString epochDates 102))
    /\ field "status" record = Some (JStr "present")
    /\ (forall t, t <> 101 -> "ATT" ++ pretty t <> "ATT" ++ pretty 101).
Proof.
  apply (@checkIn_success_record epochDates Demo.one_student (Demo.scan "STU1")
           100 101 102).
  vm_compute. reflexivity.
Defined.

(** Deleting [STU001] from the sample data. *)
Lemma deleteStudent_cascade_witness :
  exists st',
    deleteStudent "STU001" Demo.sample =
      (c_json (obj [("message", JStr "Student deleted successfully")]), st')
    /\ st' !! ("student:" ++ "STU001") = None
    /\ (forall k v, st' !! k = Some v <->
          Demo.sample !! k = Some v
          /\ k <> "student:" ++ "STU001"
          /\ ~ (String.prefix "attendance:" k = true
                /\ strictEq (field "studentId" v) (Some (JStr "STU001")) = true))
    /\ (forall record, In record (@attendanceRecords epochDates st') ->
          strictEq (field "studentId" record) (Some (JStr "STU001")) = false).
Proof.
  refine (@deleteStudent_cascade epochDates Demo.sample "STU001" _).
  apply reachable_step, reachable_empty.
Defined.



(** A row without [id] blocks [STU1]. *)
Lemma checkIn_blocked_by_record_without_id_witness :
  ~ In Demo.record_without_id (@attendanceRecords epochDates Demo.with_record_without_id)
  /\ @checkIn epochDates (Demo.scan "STU1") 5 6 7 Demo.with_record_without_id =
       (c_json_status
          (obj [("error", JStr "Already checked in");
                ("message", JStr ("X" ++ " has already checked in today"));
                ("student", JObj Demo.stu1)]) 409, Demo.with_record_without_id).
Proof.
  refine (@checkIn_blocked_by_record_without_id epochDates
            Demo.with_record_without_id (list_to_map [("qrCode", JStr "STU1")])
            (JStr "STU1") (Row "student:STU1" (JObj Demo.stu1)) "X"
            "attendance:X" Demo.record_without_id 5 6 7 _ _ _ _ _ _ _ _ _);
    try (vm_compute; reflexivity).
  apply readable_rows. vm_compute. reflexivity.
Defined.

(** A row marked [absent] blocks [STU1]. *)
Lemma checkIn_blocked_whatever_status_example :
  @checkIn epochDates (Demo.scan "STU1") 5 6 7 Demo.with_absent_record =
    (c_json_status
       (obj [("error", JStr "Already checked in");
             ("message", JStr ("X" ++ " has already checked in today"));
             ("student", JObj Demo.stu1)]) 409, Demo.with_absent_record).
Proof.
  refine (@checkIn_blocked_whatever_status epochDates
            Demo.with_absent_record (list_to_map [("qrCode", JStr "STU1")])
            (JStr "STU1") (Row "student:STU1" (JObj Demo.stu1)) "X"
            "attendance:ATT5" Demo.record_core (JStr "absent") 5 6 7 _ _ _ _ _ _ _ _);
    try (vm_compute; reflexivity).
  apply readable_rows. vm_compute. reflexivity.
Qed.

(** C10. The claim is what the handler sets out to do, and does for a
    student whose name has a string form ([checkIn_blocked_whatever_status]).
    It misses where the name has none. A student is created with the
    name [{"toString": 1}], which the required-field test lets through;
    its first check-in writes the row [ATT5] and then throws on the
    success message, so the answer is 500. On the second check-in of the
    day the stored row blocks, the handler throws on the message of the
    409 answer, and the answer is 500 "Failed to check in student", not
    409 "Already checked in". *)
Theorem checkIn_blocked_answers_500 :
  let st := Demo.odd_name_checked_in in
  @reachable epochDates st
  /\ @checkIn epochDates (Demo.scan "STU1") 5 5 5 Demo.odd_name =
       (c_json_status (obj [("error", JStr "Failed to check in student")]) 500, st)
  /\ st <> Demo.odd_name
  /\ (exists student r,
        @findStudent (JStr "STU1") st = Some student
        /\ st !! "attendance:ATT5" = Some r
        /\ @blocks epochDates (field "id" (value student))
             (@toDateString epochDates 6) r = true
        /\ toString_opt (field "name" (value student)) = None)
  /\ @checkIn epochDates (Demo.scan "STU1") 6 6 6 st =
       (c_json_status (obj [("error", JStr "Failed to check in student")]) 500, st)
  /\ status (@checkIn epochDates (Demo.scan "STU1") 6 6 6 st).1 <> 409.
Proof.
  split; [do 2 apply reachable_step; apply reachable_empty|].
  split; [by vm_compute|].
  split.
  { intros Heq.
    assert (Demo.odd_name_checked_in !! "attendance:ATT5"
            = Demo.odd_name !! "attendance:ATT5") as Habs by (by rewrite Heq).
    vm_compute in Habs. discriminate Habs. }
  split.
  { exists (Row "student:STU1" (default JNull (Demo.odd_name !! "student:STU1"))),
      (default JNull (Demo.odd_name_checked_in !! "attendance:ATT5")).
    repeat split; by vm_compute. }
  split; by vm_compute.
Qed.

(** * More about the handlers *)

Section HandlerFacts.
Context {D : JsDate}.

(** X1. A request that is turned down (answered neither 200 nor 500:
    the handlers' 400, 404 and 409) writes nothing, whichever route it
    went to. A 500 can follow a write: a check-in stores its row before
    it builds the answer. *)
Theorem handle_error_writes_nothing r (st : store) :
  status (handle r st).1 <> 200 -> status (handle r st).1 <> 500 ->
  (handle r st).2 = st.
Proof.
  destruct r as [|req tId tCreated|id req|id| |req tToday tId tStamp| |tick];
    cbn [handle fst snd]; try done.
  - unfold createStudent. destruct (destructure req) as [get|]; [|done].
    destruct (get "name"), (get "email"), (get "studentNumber"); try done.
    by destruct (_ && _).
  - unfold updateStudent. destruct (kv.get _ st) as [existing|]; [|done].
    by destruct (truthy existing).
  - unfold deleteStudent. destruct (truthy_opt _); [|done].
    by destruct (deleteRecords _ _) as [st2 []].
  - unfold checkIn. destruct (destructure req) as [get|]; [|done].
    destruct (get "qrCode") as [code|]; [|done].
    destruct (truthy code); [|done].
    destruct (findStudent code st) as [student|]; [|done].
    destruct (findTodayRecord student _ st) as [[found|]|]; [| |done];
      by destruct (toString_opt _).
  - unfold initSampleData. destruct (kv.getByPrefix _ st); [|done].
    destruct (saveAll "student:" _ st) as [st1 []]; [|done].
    by destruct (saveAll "attendance:" _ st1) as [st2 []].
Qed.

(** X2. Sending the same update twice is the same as sending it once. *)
Theorem updateStudent_idempotent studentId req (st : store) :
  updateStudent studentId req (updateStudent studentId req st).2
    = updateStudent studentId req st.
Proof.
  unfold updateStudent, kv.get, kv.set.
  destruct (st !! ("student:" ++ studentId)) as [existing|] eqn:Hk; simpl.
  - destruct (truthy existing) eqn:Ht; simpl.
    + rewrite lookup_insert_eq. simpl.
      rewrite (assoc_L (∪)), (idemp_L (∪)), insert_insert_eq. done.
    + by rewrite Hk, Ht.
  - by rewrite Hk.
Qed.

Lemma In_validStudents (st : store) student :
  In student (validStudents st) <->
  validStudent student = true /\
  exists k, st !! k = Some student /\ String.prefix "student:" k = true.
Proof.
  unfold validStudents. rewrite filter_In, In_values_getByPrefix. tauto.
Qed.

(** X3. A student that [createStudent] answers with is stored under its own
    id and is on the list of [listStudents] right after. *)
Theorem createStudent_listed req tId tCreated (st : store) :
  status (createStudent req tId tCreated st).1 = 200 ->
  exists student id,
    field "student" (body (createStudent req tId tCreated st).1) = Some student
    /\ field "id" student = Some (JStr id)
    /\ (createStudent req tId tCreated st).2 !! ("student:" ++ id) = Some student
    /\ In student (validStudents (createStudent req tId tCreated st).2).
Proof.
  unfold createStudent. destruct (destructure req) as [get|]; [|done].
  destruct (get "name") as [name|]; [|done].
  destruct (get "email") as [email|]; [|by destruct (get "studentNumber")].
  destruct (get "studentNumber") as [studentNumber|]; [|done].
  destruct (truthy name && truthy email && truthy studentNumber) eqn:Ht; [|done].
  intros _. apply andb_prop in Ht as [Ht _]. apply andb_prop in Ht as [Hname _].
  exists (newStudent name email studentNumber (get "country") tId tCreated),
    ("STU" ++ pretty tId).
  split; [reflexivity|]. split; [reflexivity|].
  assert (forall student, (kv.set ("student:" ++ "STU" ++ pretty tId) student st)
            !! ("student:" ++ "STU" ++ pretty tId) = Some student) as Hl
    by (intros; apply lookup_insert_eq).
  split; [apply Hl|].
  apply In_validStudents. split.
  - unfold validStudent.
    change (field "id" (newStudent name email studentNumber (get "country")
                          tId tCreated))
      with (Some (JStr ("STU" ++ pretty tId))).
    change (field "name" (newStudent name email studentNumber (get "country")
                            tId tCreated))
      with (Some name).
    cbn [truthy_opt]. rewrite Hname. reflexivity.
  - eexists. split; [apply Hl | apply prefix_app].
Qed.

Lemma filter_nil_forall {A} (f : A -> bool) l :
  (forall x, In x l -> f x = false) -> List.filter f l = [].
Proof.
  induction l as [|x r IH]; intros Hf; [done|]. simpl.
  rewrite (Hf x) by (by left). apply IH. intros y Hy. apply Hf. by right.
Qed.

(** X4. Creating a student under a free id and deleting it again gives the
    store back, when no attendance row names that id. *)
Theorem createStudent_deleteStudent req tId tCreated (st : store) :
  status (createStudent req tId tCreated st).1 = 200 ->
  st !! ("student:" ++ "STU" ++ pretty tId) = None ->
  (forall k r, st !! k = Some r -> String.prefix "attendance:" k = true ->
     strictEq (field "studentId" r) (Some (JStr ("STU" ++ pretty tId))) = false) ->
  deleteStudent ("STU" ++ pretty tId) (createStudent req tId tCreated st).2 =
    (c_json (obj [("message", JStr "Student deleted successfully")]), st).
Proof.
  intros Hok Hfree Hno. unfold createStudent in *.
  destruct (destructure req) as [get|]; [|done].
  destruct (get "name") as [name|]; [|done].
  destruct (get "email") as [email|]; [|by destruct (get "studentNumber")].
  destruct (get "studentNumber") as [studentNumber|]; [|done].
  destruct (truthy name && truthy email && truthy studentNumber); [|done].
  cbn [snd]. unfold deleteStudent, kv.get, kv.set, kv.del.
  rewrite lookup_insert_eq. cbn [truthy_opt]. unfold newStudent at 1, obj at 1.
  cbn [truthy]. rewrite delete_insert_id by done.
  unfold studentAttendanceRecords. rewrite filter_nil_forall; [done|].
  intros [k r] Hin. apply In_getByPrefix in Hin as [Hk Hp]. simpl in *.
  by rewrite (Hno k r Hk Hp), andb_false_r.
Qed.

(** X5. Creating and updating students never touches an attendance row. *)
Theorem student_writes_keep_attendance (st : store) k :
  String.prefix "attendance:" k = true ->
  (forall req tId tCreated, (createStudent req tId tCreated st).2 !! k = st !! k)
  /\ (forall studentId req, (updateStudent studentId req st).2 !! k = st !! k).
Proof.
  intros Hp.
  assert (forall x v, <["student:" ++ x := v]> st !! k = st !! k) as Hne.
  { intros x v. apply lookup_insert_ne. intros <-.
    by rewrite student_key_not_attendance in Hp. }
  split.
  - intros req tId tCreated.
    unfold createStudent. destruct (destructure req) as [get|]; [|done].
    destruct (get "name"), (get "email"), (get "studentNumber"); try done.
    destruct (_ && _); [|done]. apply Hne.
  - intros studentId req.
    unfold updateStudent. destruct (kv.get _ st) as [existing|]; [|done].
    destruct (truthy existing); [|done]. apply Hne.
Qed.

(** X6. A check-in never touches a student row. *)
Theorem checkIn_keeps_students req tToday tId tStamp (st : store) k :
  String.prefix "student:" k = true ->
  (checkIn req tToday tId tStamp st).2 !! k = st !! k.
Proof.
  intros Hp. unfold checkIn. destruct (destructure req) as [get|]; [|done].
  destruct (get "qrCode") as [code|]; [|done].
  destruct (truthy code); [|done].
  destruct (findStudent code st) as [student|]; [|done].
  destruct (findTodayRecord student _ st) as [[found|]|]; [| |done].
  { by destruct (toString_opt _). }
  assert (kv.set ("attendance:" ++ "ATT" ++ pretty tId)
            (newAttendanceRecord student tId tStamp) st !! k = st !! k) as Hne.
  { apply lookup_insert_ne. intros <-.
    by rewrite attendance_key_not_student in Hp. }
  by destruct (toString_opt _).
Qed.

End HandlerFacts.

(** * More about reachable stores *)

Section RowsInvariant.
Context {D : JsDate}.

(** A property of every record a check-in writes and of every sample
    record holds of every attendance row of a reachable store. *)
Variable P : json -> Prop.
Hypothesis P_checkIn : forall student tId tStamp,
  checkinStudent student = true -> P (newAttendanceRecord student tId tStamp).
Hypothesis P_sample : forall tick, Forall P (sampleAttendance tick).

Let rows (st : store) : Prop :=
  forall k v, st !! k = Some v -> String.prefix "attendance:" k = true -> P v.

Lemma rows_insert_student (st : store) x v :
  rows st -> rows (<["student:" ++ x := v]> st).
Proof.
  intros Hst k r Hk Hp. apply (Hst k r); [|done].
  rewrite lookup_insert_ne in Hk; [done|].
  intros <-. by rewrite student_key_not_attendance in Hp.
Qed.

Lemma rows_insert (st : store) k v : P v -> rows st -> rows (<[k := v]> st).
Proof.
  intros Hv Hst k' r Hk Hp. destruct (decide (k = k')) as [<-|Hne].
  - rewrite lookup_insert_eq in Hk. by simplify_eq.
  - rewrite lookup_insert_ne in Hk by done. by apply (Hst k').
Qed.

Lemma rows_saveAll_students xs (st : store) :
  rows st -> rows (saveAll "student:" xs st).1.
Proof.
  revert st. induction xs as [|x xs IH]; intros st Hst; [done|]. simpl.
  destruct (toString_opt _) as [id|]; [|done].
  apply IH. by apply rows_insert_student.
Qed.

Lemma rows_saveAll_records xs (st : store) :
  Forall P xs -> rows st -> rows (saveAll "attendance:" xs st).1.
Proof.
  intros Hxs. revert st. induction Hxs as [|x xs Hx Hxs IH]; intros st Hst; [done|].
  simpl. destruct (toString_opt _) as [id|]; [|done].
  apply IH. by apply rows_insert.
Qed.

Lemma rows_handle r (st : store) : rows st -> rows (handle r st).2.
Proof.
  intros Hst.
  destruct r as [|req tId tCreated|id req|id| |req tToday tId tStamp| |tick];
    cbn [handle snd]; try done.
  - unfold createStudent. destruct (destructure req) as [get|]; [|done].
    destruct (get "name"), (get "email"), (get "studentNumber"); try done.
    destruct (_ && _); [|done]. by apply rows_insert_student.
  - unfold updateStudent. destruct (kv.get _ st) as [existing|]; [|done].
    destruct (truthy existing); [|done]. by apply rows_insert_student.
  - intros k v Hk Hp. apply lookup_deleteStudent_sub in Hk as [Hk _].
    by apply (Hst k).
  - unfold checkIn. destruct (destructure req) as [get|]; [|done].
    destruct (get "qrCode") as [code|]; [|done].
    destruct (truthy code); [|done].
    destruct (findStudent code st) as [student|] eqn:Hs; [|done].
    destruct (findTodayRecord student _ st) as [[found|]|]; [| |done].
    { by destruct (toString_opt _). }
    assert (rows (kv.set ("attendance:" ++ "ATT" ++ pretty tId)
                    (newAttendanceRecord student tId tStamp) st)) as Hset.
    { apply rows_insert; [|done].
      apply P_checkIn. by apply findStudent_checkinStudent in Hs as [Hwf _]. }
    by destruct (toString_opt _).
  - unfold initSampleData. destruct (kv.getByPrefix _ st); [|done].
    pose proof (rows_saveAll_students (sampleStudents tick) st Hst) as H1.
    destruct (saveAll "student:" _ st) as [st1 []]; [|done].
    pose proof (rows_saveAll_records (sampleAttendance tick) st1 (P_sample tick) H1)
      as H2.
    by destruct (saveAll "attendance:" _ st1) as [st2 []].
Qed.

Lemma reachable_rows (st : store) : reachable st -> rows st.
Proof.
  induction 1 as [|r st _ IH].
  - intros k v Hk. by rewrite lookup_empty in Hk.
  - by apply rows_handle.
Qed.

End RowsInvariant.

Section ReachableFacts.
Context {D : JsDate}.

Lemma newAttendanceRecord_valid student tId tStamp :
  checkinStudent student = true ->
  validRecord (newAttendanceRecord student tId tStamp) = true.
Proof.
  intros Hwf. unfold checkinStudent in Hwf.
  apply andb_prop in Hwf as [Hwf _]. apply andb_prop in Hwf as [_ Hid].
  unfold validRecord.
  destruct (newAttendanceRecord_fields student tId tStamp)
    as (-> & -> & -> & _).
  destruct (field "id" (value student)) as [sid|]; [|done].
  cbn [truthy_opt] in *. change (default JNull (Some sid)) with sid.
  rewrite Hid. cbn [truthy].
  destruct (String.eqb_spec (toISOString tStamp) "") as [He|]; [|reflexivity].
  by destruct (toISOString_nonempty tStamp).
Qed.

Lemma sampleRecord_valid id studentId t :
  id <> "" -> studentId <> "" -> validRecord (sampleRecord id studentId t) = true.
Proof.
  intros Hid Hsid. unfold validRecord.
  change (field "id" (sampleRecord id studentId t)) with (Some (JStr id)).
  change (field "studentId" (sampleRecord id studentId t))
    with (Some (JStr studentId)).
  change (field "timestamp" (sampleRecord id studentId t))
    with (Some (JStr (toISOString t))).
  cbn [truthy_opt truthy andb sampleRecord obj].
  destruct (String.eqb_spec id ""); [done|].
  destruct (String.eqb_spec studentId ""); [done|].
  destruct (String.eqb_spec (toISOString t) "") as [He|]; [|done].
  by destruct (toISOString_nonempty t).
Qed.

(** X7. In a reachable store every attendance row is a valid record with
    status [present], and [listAttendance] returns every stored row. *)
Theorem reachable_rows_listed (st : store) k v :
  reachable st ->
  st !! k = Some v -> String.prefix "attendance:" k = true ->
  validRecord v = true
  /\ field "status" v = Some (JStr "present")
  /\ In v (attendanceRecords st).
Proof.
  intros Hreach Hk Hp.
  assert (validRecord v = true /\ field "status" v = Some (JStr "present"))
    as [Hv Hs].
  { revert k v Hk Hp.
    apply (reachable_rows
             (fun v => validRecord v = true
                       /\ field "status" v = Some (JStr "present"))); [| |done].
    - intros student tId tStamp Hwf. split; [by apply newAttendanceRecord_valid|].
      by destruct (newAttendanceRecord_fields student tId tStamp)
        as (_ & _ & _ & -> & _).
    - intros tick. repeat constructor; by apply sampleRecord_valid. }
  split; [done|]. split; [done|].
  apply In_attendanceRecords. split; [done|]. by exists k.
Qed.

Lemma StronglySorted_weaken {A} (R R' : A -> A -> Prop) l :
  (forall a b, In a l -> In b l -> R a b -> R' a b) ->
  StronglySorted R l -> StronglySorted R' l.
Proof.
  intros Himp Hs. induction Hs as [|a l Hs IH Ha]; constructor.
  - apply IH. intros x y Hx Hy. apply Himp; by right.
  - rewrite Forall_forall in *. intros b Hb.
    apply Himp; [by left | right; by apply list_elem_of_In | by apply Ha].
Qed.

Lemma attendanceRecords_descending (st : store) :
  (forall record, In record (attendanceRecords st) -> is_Some (getTime record)) ->
  descending (fun r => default 0 (getTime r)) (attendanceRecords st).
Proof.
  intros Hd. unfold attendanceRecords, attendanceRecordsOf.
  apply (js_sort_descending byTimestampDesc (fun r => default 0 (getTime r))).
  apply byTimestampDesc_ranked. intros record Hin.
  apply Hd. unfold attendanceRecords, attendanceRecordsOf. by apply In_js_sort.
Qed.

(** X8. In a reachable store [listAttendance] is ordered by time, latest
    first: every record comes no earlier than the ones listed after it. *)
Theorem attendanceRecords_newest_first (st : store) :
  reachable st ->
  StronglySorted
    (fun a b => exists ta tb,
       getTime a = Some ta /\ getTime b = Some tb /\ tb <= ta)
    (attendanceRecords st).
Proof.
  intros Hreach.
  assert (forall record, In record (attendanceRecords st) ->
            is_Some (getTime record)) as Hd
    by (intros record; by apply reachable_records_dated).
  apply (StronglySorted_weaken
           (fun a b => default 0 (getTime b) <= default 0 (getTime a))).
  - intros a b Ha Hb Hab.
    destruct (Hd a Ha) as [ta Hta], (Hd b Hb) as [tb Htb].
    exists ta, tb. by rewrite Hta, Htb in Hab.
  - by apply attendanceRecords_descending.
Qed.

Lemma sampleStudent_id id name email studentNumber country t :
  toString_opt (field "id" (sampleStudent id name email studentNumber country t))
    = Some id.
Proof. reflexivity. Qed.

Lemma sampleRecord_id id studentId t :
  toString_opt (field "id" (sampleRecord id studentId t)) = Some id.
Proof. reflexivity. Qed.

(** The two loops of [initSampleData] complete, and the last student is
    in the store after them. *)
Lemma saveAll_samples tick (st : store) :
  exists st1 st2,
    saveAll "student:" (sampleStudents tick) st = (st1, true)
    /\ saveAll "attendance:" (sampleAttendance tick) st1 = (st2, true)
    /\ st2 !! "student:STU005"
         = Some (sampleStudent "STU005" "Emma Brown" "emma.brown@school.edu"
                   "2021005" "Germany" (tick 4%nat)).
Proof.
  eexists _, _. split; [|split].
  - unfold sampleStudents. cbn [saveAll]. rewrite !sampleStudent_id. reflexivity.
  - unfold sampleAttendance. cbn [saveAll]. rewrite !sampleRecord_id. reflexivity.
  - unfold kv.set. rewrite !lookup_insert_ne by done. apply lookup_insert_eq.
Qed.

(** X9. Once any row is stored under [student:], [initSampleData] writes
    nothing; after a run that did write, that is the case, so a second run
    never adds to the first. *)
Theorem initSampleData_once tick tick' (st : store) :
  initSampleData tick' (initSampleData tick st).2 =
    (c_json (obj [("message", JStr "Sample data already exists")]),
     (initSampleData tick st).2).
Proof.
  unfold initSampleData at 2 3.
  destruct (kv.getByPrefix "student:" st) as [|it its] eqn:Hscan; cbn [snd].
  - destruct (saveAll_samples tick st) as (st1 & st2 & -> & -> & Hlast).
    cbn [snd].
    assert (In (Row "student:STU005"
                  (sampleStudent "STU005" "Emma Brown" "emma.brown@school.edu"
                     "2021005" "Germany" (tick 4%nat)))
              (kv.getByPrefix "student:" st2)) as Hin.
    { apply In_getByPrefix. by split. }
    unfold initSampleData. by destruct (kv.getByPrefix "student:" st2).
  - unfold initSampleData. by rewrite Hscan.
Qed.

(** X10. Deleting the same id a second time always answers 404 and writes
    nothing. *)
Theorem deleteStudent_twice studentId (st : store) :
  deleteStudent studentId (deleteStudent studentId st).2 =
    (c_json_status (obj [("error", JStr "Student not found")]) 404,
     (deleteStudent studentId st).2).
Proof.
  destruct (truthy_opt (st !! ("student:" ++ studentId))) eqn:Hs.
  - unfold deleteStudent at 1, kv.get.
    destruct ((deleteStudent studentId st).2 !! ("student:" ++ studentId))
      as [v|] eqn:Hk; [|done].
    apply lookup_deleteStudent_sub in Hk as [_ Hne]. by destruct (Hne Hs).
  - assert ((deleteStudent studentId st).2 = st) as ->.
    { unfold deleteStudent, kv.get. by rewrite Hs. }
    unfold deleteStudent, kv.get. by rewrite Hs.
Qed.

(** X11. After a student is deleted, a check-in with a code that only that
    student carried answers 404 and writes nothing. *)
Theorem deleteStudent_then_checkIn studentId (st : store) o code
    tToday tId tStamp :
  o !! "qrCode" = Some code -> truthy code = true ->
  (forall k s, st !! k = Some s -> String.prefix "student:" k = true ->
     checkinStudent (Row k s) = true ->
     strictEq (field "qrCode" s) (Some code) = true ->
     k = "student:" ++ studentId) ->
  truthy_opt (st !! ("student:" ++ studentId)) = true ->
  checkIn (JObj o) tToday tId tStamp (deleteStudent studentId st).2 =
    (c_json_status (obj [("error", JStr "Student not found")]) 404,
     (deleteStudent studentId st).2).
Proof.
  intros Ho Hc Honly Hs.
  unfold checkIn. cbn [destructure field]. rewrite Ho, Hc.
  rewrite findStudent_none; [done|].
  intros k s Hk Hp Hwf. destruct (strictEq _ _) eqn:E; [|done].
  apply lookup_deleteStudent_sub in Hk as [Hk Hne].
  by destruct (Hne Hs); apply (Honly k s).
Qed.

End ReachableFacts.

(** * The browser side against the server *)

Lemma filter_all {A} (f : A -> bool) l :
  (forall x, In x l -> f x = true) -> List.filter f l = l.
Proof.
  induction l as [|x r IH]; intros Hf; [done|]. simpl.
  rewrite (Hf x) by (by left). f_equal. apply IH. intros y Hy. apply Hf. by right.
Qed.

Lemma filter_length_perm {A} (f : A -> bool) l l' :
  l ≡ₚ l' -> length (List.filter f l) = length (List.filter f l').
Proof.
  induction 1 as [|x l l' _ IH|x y l|l l' l'' _ IH1 _ IH2]; simpl.
  - done.
  - destruct (f x); simpl; by rewrite IH.
  - by destruct (f x), (f y).
  - by rewrite IH1.
Qed.

(** Sorting a list that is already in order leaves it as it is. *)
Lemma js_sort_sorted {A} (cmp : A -> A -> option Z) (rank : A -> Z) l :
  ranked cmp rank l -> descending rank l -> js_sort cmp l = l.
Proof.
  intros Hr Hs. induction Hs as [|x r Hs IH Hx]; [done|].
  cbn [js_sort]. rewrite IH by (by eapply ranked_cons).
  apply sort_insert_head. intros y Hy.
  rewrite (Hr x y) by (simpl; auto).
  rewrite Forall_forall in Hx. apply Z.ltb_ge. by apply Hx, list_elem_of_In.
Qed.

(** The last element of a list in order is below all the others. *)
Lemma StronglySorted_last {A} (R : A -> A -> Prop) l x :
  StronglySorted R l -> last l = Some x ->
  forall y, In y l -> y = x \/ R y x.
Proof.
  intros Hs. induction Hs as [|a l Hs IH Ha]; [done|].
  intros Hlast y Hy. destruct l as [|b l].
  - simpl in *. destruct Hy as [<-|[]]. left. congruence.
  - change (last (a :: b :: l)) with (last (b :: l)) in Hlast.
    destruct Hy as [<-|Hy]; [|by apply IH].
    right. rewrite Forall_forall in Ha. apply Ha, list_elem_of_In.
    destruct (IH Hlast x) as [_|_]; try (by apply list_elem_of_In, last_Some_elem_of);
      by apply list_elem_of_In, last_Some_elem_of.
Qed.

Lemma append_String c (m t : string) : String c m ++ t = String c (m ++ t).
Proof. reflexivity. Qed.

Ltac step_prefix m :=
  destruct m as [|? m]; [reflexivity|];
  rewrite append_String; cbn [String.prefix];
  match goal with
  | |- context [ascii_dec ?a ?b] => destruct (ascii_dec a b); [|reflexivity]
  end.

Lemma prefix_already m :
  String.prefix "Already checked in" (m ++ " has already checked in today")
    = String.prefix "Already checked in" m.
Proof. repeat (step_prefix m). by destruct m. Qed.

Lemma prefix_not_found m :
  String.prefix "Student not found" (m ++ " has already checked in today")
    = String.prefix "Student not found" m.
Proof. repeat (step_prefix m). by destruct m. Qed.

(** The server's 409 message contains a phrase only when the name does. *)
Lemma includes_already n :
  includes (n ++ " has already checked in today") "Already checked in"
    = includes n "Already checked in".
Proof.
  induction n as [|c n IH]; [reflexivity|].
  change (includes (String c n ++ " has already checked in today")
            "Already checked in")
    with (String.prefix "Already checked in"
            (String c n ++ " has already checked in today")
          || includes (n ++ " has already checked in today") "Already checked in").
  by rewrite IH, prefix_already.
Qed.

Lemma includes_not_found n :
  includes (n ++ " has already checked in today") "Student not found"
    = includes n "Student not found".
Proof.
  induction n as [|c n IH]; [reflexivity|].
  change (includes (String c n ++ " has already checked in today")
            "Student not found")
    with (String.prefix "Student not found"
            (String c n ++ " has already checked in today")
          || includes (n ++ " has already checked in today") "Student not found").
  by rewrite IH, prefix_not_found.
Qed.

Lemma truthy_append n s : s <> "" -> truthy (JStr (n ++ s)) = true.
Proof. intros Hs. destruct n, s; done. Qed.

Section ClientFacts.
Context {D : JsDate}.
Variable nullRead : string -> string.
Variable cannotConvert : string.

Lemma validRecord_not_null record :
  validRecord record = true -> record <> JNull.
Proof. by intros Hv ->. Qed.

Lemma In_attendanceRecords_valid (st : store) record :
  In record (attendanceRecords st) -> validRecord record = true.
Proof. intros Hin. by apply In_attendanceRecords in Hin as [Hv _]. Qed.

Lemma In_todayRecords_valid (st : store) tToday record :
  In record (todayRecords tToday st) -> validRecord record = true.
Proof.
  unfold todayRecords, todayRecordsOf. intros Hin.
  apply In_js_sort, filter_In in Hin as [_ Hv].
  by apply andb_prop in Hv as [Hv _].
Qed.

(** Every store the handlers produce has attendance timestamps that can
    be read. *)
Lemma reachable_readable (st : store) : reachable st -> readable st.
Proof.
  intros Hreach. unfold readable.
  apply (reachable_rows (fun v => dateThrows v = false)); [| |done].
  - intros student tId tStamp _. apply dateThrows_newAttendanceRecord.
  - intros tick. by repeat constructor.
Qed.

Lemma listAttendance_ok (st : store) :
  readable st ->
  listAttendance st = c_json (obj [("attendanceRecords", JArr (attendanceRecords st))]).
Proof.
  intros Hread. apply listAttendanceOf_ok. intros record Hin _.
  apply In_values_getByPrefix in Hin as [k [Hk Hp]]. by apply (Hread k).
Qed.

Lemma listAttendanceToday_ok (st : store) tToday :
  readable st ->
  listAttendanceToday tToday st =
    c_json (obj [("attendanceRecords", JArr (todayRecords tToday st))]).
Proof.
  intros Hread. apply listAttendanceTodayOf_ok. intros record Hin _.
  apply In_values_getByPrefix in Hin as [k [Hk Hp]]. by apply (Hread k).
Qed.

(** What the two list calls make of a 200 answer that carries a list of
    valid records, and of a 500 answer. *)
Lemma filteredOrEmpty_ok endpoint records :
  (forall record, In record records -> validRecord record = true) ->
  filteredOrEmpty "attendanceRecords" validRecord
    (apiRequest nullRead cannotConvert endpoint
       (c_json (obj [("attendanceRecords", JArr records)])))
  = records.
Proof.
  intros Hv. unfold filteredOrEmpty.
  change (apiRequest nullRead cannotConvert endpoint
            (c_json (obj [("attendanceRecords", JArr records)])))
    with (inr (A := string) (obj [("attendanceRecords", JArr records)])).
  change (field "attendanceRecords" (obj [("attendanceRecords", JArr records)]))
    with (Some (JArr records)).
  by apply filter_all.
Qed.

Lemma filteredOrEmpty_500 endpoint k valid error :
  filteredOrEmpty k valid
    (apiRequest nullRead cannotConvert endpoint (c_json_status error 500)) = [].
Proof.
  unfold apiRequest. cbn [c_json_status status body Z.leb Z.eqb Z.compare
    Pos.compare Pos.compare_cont Pos.eqb andb].
  by destruct error.
Qed.

Lemma getAll_listAttendance (st : store) :
  readable st ->
  attendanceAPI_getAll nullRead cannotConvert (listAttendance st)
    = attendanceRecords st.
Proof.
  intros Hread. unfold attendanceAPI_getAll. rewrite listAttendance_ok by done.
  apply filteredOrEmpty_ok, In_attendanceRecords_valid.
Qed.

Lemma getToday_listAttendanceToday (st : store) tToday :
  readable st ->
  attendanceAPI_getToday nullRead cannotConvert (listAttendanceToday tToday st)
    = todayRecords tToday st.
Proof.
  intros Hread. unfold attendanceAPI_getToday.
  rewrite listAttendanceToday_ok by done.
  apply filteredOrEmpty_ok, In_todayRecords_valid.
Qed.

(** X12. What [studentAPI.getAll] hands to the application: the students
    [listStudents] returns that also have a truthy [email]. *)
Theorem studentAPI_getAll_listStudents (st : store) :
  studentAPI_getAll nullRead cannotConvert (listStudents st) =
    List.filter (fun student => truthy_opt (field "email" student))
      (validStudents st).
Proof.
  unfold studentAPI_getAll, listStudents, validStudents.
  cbn [apiRequest c_json status body Z.leb Z.compare Pos.compare
       Pos.compare_cont andb filteredOrEmpty obj].
  change (field "students"
            (JObj (list_to_map [("students",
               JArr (List.filter validStudent
                       (value <$> kv.getByPrefix "student:" st)))])))
    with (Some (JArr (List.filter validStudent
                        (value <$> kv.getByPrefix "student:" st)))).
  cbn [or_else truthy_opt truthy].
  apply filter_ext_in. intros student Hin. apply filter_In in Hin as [_ Hv].
  unfold clientValidStudent. unfold validStudent in Hv. by rewrite Hv.
Qed.

(** X13. The re-validation in [attendanceAPI.getAll] and [getToday] drops
    nothing: whenever the server answers 200 the application gets the
    server's list as it is; the only other answer is the 500 of a date
    that cannot be made, which the application turns into an empty
    list. *)
Theorem attendanceAPI_lists (st : store) tToday :
  attendanceAPI_getAll nullRead cannotConvert (listAttendance st)
    = (if Z.eqb (status (listAttendance st)) 200 then attendanceRecords st else [])
  /\ attendanceAPI_getToday nullRead cannotConvert (listAttendanceToday tToday st)
    = (if Z.eqb (status (listAttendanceToday tToday st)) 200
       then todayRecords tToday st else []).
Proof.
  split.
  - unfold attendanceAPI_getAll, listAttendance, listAttendanceOf.
    destruct (sortThrows _).
    + by rewrite filteredOrEmpty_500.
    + cbn [c_json status Z.eqb Pos.eqb].
      apply filteredOrEmpty_ok, In_attendanceRecords_valid.
  - unfold attendanceAPI_getToday, listAttendanceToday, listAttendanceTodayOf.
    destruct (existsb _ _).
    + by rewrite filteredOrEmpty_500.
    + cbn [c_json status Z.eqb Pos.eqb].
      apply filteredOrEmpty_ok, In_todayRecords_valid.
Qed.

End ClientFacts.

Section ScanFacts.
Context {D : JsDate}.
Variable nullRead : string -> string.
Variable cannotConvert : string.

Lemma apiRequest_ok endpoint v :
  apiRequest nullRead cannotConvert endpoint (c_json v) = inr v.
Proof. reflexivity. Qed.

Lemma apiRequest_checkin_409 error message student :
  message <> "" ->
  apiRequest nullRead cannotConvert "/attendance/checkin"
    (c_json_status
       (obj [("error", error); ("message", JStr message); ("student", student)])
       409)
    = inl message.
Proof.
  intros Hm. unfold apiRequest.
  cbn [c_json_status status body Z.leb Z.eqb Z.compare Pos.compare
       Pos.compare_cont Pos.eqb andb obj].
  change (includes "/attendance/checkin" "/attendance/checkin") with true.
  cbn [andb].
  change (field "message"
            (obj [("error", error); ("message", JStr message);
                  ("student", student)]))
    with (Some (JStr message)).
  unfold or_else. cbn [truthy_opt truthy].
  destruct (String.eqb_spec message ""); [done|]. reflexivity.
Qed.

(** X14. Scanning a code again the same day, for a student whose name is
    a string, in a store whose attendance timestamps can be read: the
    application shows the server's "has already checked in today"
    message only when the student's name itself contains "Already
    checked in"; otherwise it shows the generic failure (or, for a name
    containing "Student not found", the unknown-code text). State and
    store stay as they were. *)
Theorem handleQRScan_duplicate (st : store) qrCode student name k r
    tToday tId tStamp records :
  qrCode <> "" ->
  findStudent (JStr qrCode) st = Some student ->
  field "name" (value student) = Some (JStr name) ->
  readable st ->
  st !! k = Some r -> String.prefix "attendance:" k = true ->
  blocks (field "id" (value student)) (toDateString tToday) r = true ->
  handleQRScan nullRead cannotConvert qrCode tToday tId tStamp records st =
    (if includes name "Already checked in"
     then toast_error (name ++ " has already checked in today")
     else if includes name "Student not found"
     then toast_error ("No student found with QR code: " ++ qrCode)
     else toast_error "Failed to check in student. Please try again.",
     records, st).
Proof.
  intros Hq Hs Hname Hread Hk Hp Hb. unfold handleQRScan.
  change (obj [("qrCode", JStr qrCode)])
    with (JObj (list_to_map [("qrCode", JStr qrCode)])).
  rewrite (checkIn_blocked st (list_to_map [("qrCode", JStr qrCode)])
             (JStr qrCode) student name k r tToday tId tStamp);
    [|done|by apply truthy_JStr|done|by rewrite Hname|done..].
  cbn [fst snd]. unfold attendanceAPI_checkIn.
  rewrite apiRequest_checkin_409 by (by destruct name).
  unfold scanFailure. by rewrite includes_already, includes_not_found.
Qed.

(** X15. Scanning a code no well-formed student carries: the application
    shows "No student found with QR code: <code>" (the generic failure
    for the empty code); state and store stay as they were. *)
Theorem handleQRScan_unknown (st : store) qrCode tToday tId tStamp records :
  (forall k s, st !! k = Some s -> String.prefix "student:" k = true ->
     checkinStudent (Row k s) = true ->
     strictEq (field "qrCode" s) (Some (JStr qrCode)) = false) ->
  handleQRScan nullRead cannotConvert qrCode tToday tId tStamp records st =
    (if String.eqb qrCode ""
     then toast_error "Failed to check in student. Please try again."
     else toast_error ("No student found with QR code: " ++ qrCode),
     records, st).
Proof.
  intros Hno. unfold handleQRScan, checkIn.
  cbn [destructure obj field].
  change (list_to_map [("qrCode", JStr qrCode)] !! "qrCode")
    with (Some (JStr qrCode)).
  cbn [truthy]. destruct (String.eqb qrCode ""); cbn [negb]; [reflexivity|].
  by rewrite (findStudent_none st (JStr qrCode) Hno).
Qed.

(** X16. A first scan of the day, for a student whose name is a string,
    in a store whose attendance timestamps can be read: the application
    shows the server's "checked in successfully!" message, and the list
    in its state becomes the server's list after the write, the new
    record included. *)
Theorem handleQRScan_success (st : store) qrCode student name
    tToday tId tStamp records :
  qrCode <> "" ->
  findStudent (JStr qrCode) st = Some student ->
  field "name" (value student) = Some (JStr name) ->
  readable st ->
  (forall k r, st !! k = Some r -> String.prefix "attendance:" k = true ->
     blocks (field "id" (value student)) (toDateString tToday) r = false) ->
  let record := newAttendanceRecord student tId tStamp in
  let st' := <["attendance:" ++ "ATT" ++ pretty tId := record]> st in
  handleQRScan nullRead cannotConvert qrCode tToday tId tStamp records st =
    (toast_success (Some (JStr (name ++ " checked in successfully!"))),
     attendanceRecords st', st')
  /\ In record (attendanceRecords st').
Proof.
  intros Hq Hs Hname Hread Hno record st'. split.
  - unfold handleQRScan.
    change (obj [("qrCode", JStr qrCode)])
      with (JObj (list_to_map [("qrCode", JStr qrCode)])).
    rewrite (checkIn_fresh st (list_to_map [("qrCode", JStr qrCode)])
               (JStr qrCode) student name tToday tId tStamp);
      [|done|by apply truthy_JStr|done|by rewrite Hname|done..].
    cbn [fst snd]. unfold attendanceAPI_checkIn.
    rewrite apiRequest_ok, getAll_listAttendance; [reflexivity|].
    by apply readable_insert.
  - apply In_attendanceRecords. split.
    + apply newAttendanceRecord_valid.
      by apply findStudent_checkinStudent in Hs as [Hwf _].
    + exists ("attendance:" ++ "ATT" ++ pretty tId). split; [|apply prefix_app].
      apply lookup_insert_eq.
Qed.

End ScanFacts.

Section DashboardFacts.
Context {D : JsDate}.
Variable nullRead : string -> string.
Variable cannotConvert : string.

(** X17. With the list the server returns, the "Last Check-in" card shows the
    time of the earliest record: the list is latest first and the card
    reads its last entry. *)
Theorem lastCheckIn_is_earliest (st : store) formatTime record :
  reachable st ->
  last (attendanceAPI_getAll nullRead cannotConvert (listAttendance st))
    = Some record ->
  lastCheckIn formatTime
      (attendanceAPI_getAll nullRead cannotConvert (listAttendance st))
    = Some (formatTime (field "timestamp" record))
  /\ exists t, getTime record = Some t
       /\ forall other,
            In other (attendanceAPI_getAll nullRead cannotConvert
                        (listAttendance st)) ->
            exists t', getTime other = Some t' /\ t <= t'.
Proof.
  intros Hreach.
  rewrite getAll_listAttendance by (by apply reachable_readable).
  intros Hlast.
  assert (forall r, In r (attendanceRecords st) -> is_Some (getTime r)) as Hd
    by (intros r; by apply reachable_records_dated).
  assert (In record (attendanceRecords st)) as Hin
    by (by apply list_elem_of_In, last_Some_elem_of).
  split.
  - unfold lastCheckIn. rewrite Hlast.
    assert (dateThrows record = false) as ->.
    { apply In_attendanceRecords in Hin as [_ [k [Hk Hp]]].
      by apply (reachable_readable st Hreach k). }
    apply In_attendanceRecords_valid in Hin. by destruct record.
  - destruct (Hd record Hin) as [t Ht].
    exists t. split; [done|]. intros other Hother.
    destruct (Hd other Hother) as [t' Ht']. exists t'. split; [done|].
    destruct (StronglySorted_last _ _ _ (attendanceRecords_descending st Hd)
                Hlast other Hother) as [->|Hle].
    + assert (t' = t) as -> by congruence. lia.
    + by rewrite Ht, Ht' in Hle.
Qed.

(** X18. With the list the server returns, "Recent Attendance History" is its
    first ten entries: the ten latest records, latest first. *)
Theorem getRecentRecords_latest_ten (st : store) :
  reachable st ->
  getRecentRecords (attendanceAPI_getAll nullRead cannotConvert (listAttendance st))
    = Some (take 10 (attendanceRecords st)).
Proof.
  intros Hreach.
  rewrite getAll_listAttendance by (by apply reachable_readable).
  unfold getRecentRecords.
  assert (forall record, In record (attendanceRecords st) ->
            is_Some (getTime record)) as Hd
    by (intros record; by apply reachable_records_dated).
  rewrite filter_all.
  - assert (sortThrows (attendanceRecords st) = false) as ->.
    { unfold sortThrows.
      assert (existsb dateThrows (attendanceRecords st) = false) as ->;
        [|by rewrite andb_false_r].
      apply existsb_false_forall. intros record Hin.
      apply In_attendanceRecords in Hin as [_ [k [Hk Hp]]].
      by apply (reachable_readable st Hreach k). }
    do 2 f_equal.
    apply (js_sort_sorted byTimestampDesc (fun r => default 0 (getTime r))).
    + by apply byTimestampDesc_ranked.
    + by apply attendanceRecords_descending.
  - intros record Hin. apply In_attendanceRecords_valid in Hin.
    unfold validRecord in Hin.
    apply andb_prop in Hin as [Hin ->]. apply andb_prop in Hin as [Hin _].
    apply andb_prop in Hin as [-> _]. done.
Qed.

(** X19. After a student is deleted, dropping that student's records from the
    list in state leaves the records the server lists from then on. *)
Theorem dropStudentRecords_as_server (st : store) studentId :
  reachable st ->
  truthy_opt (st !! ("student:" ++ studentId)) = true ->
  exists kept,
    dropStudentRecords studentId
      (attendanceAPI_getAll nullRead cannotConvert (listAttendance st)) = Some kept
    /\ forall record,
         In record kept <->
         In record (attendanceAPI_getAll nullRead cannotConvert
                      (listAttendance (deleteStudent studentId st).2)).
Proof.
  intros Hreach Hs.
  rewrite !getAll_listAttendance
    by (apply reachable_readable; done || by apply (reachable_step (DeleteStudent _))).
  eexists. split.
  - unfold dropStudentRecords.
    rewrite (proj2 (forallb_forall _ (attendanceRecords st))); [reflexivity|].
    intros record Hin. apply In_attendanceRecords_valid in Hin. by destruct record.
  - intros record. rewrite filter_In, !In_attendanceRecords.
    pose proof (fun k => deleteStudent_store st studentId k record
                  (reachable_attendance_wf st Hreach) Hs) as Hst.
    split.
    + intros [[Hv [k [Hk Hp]]] Hne]. split; [done|]. exists k. split; [|done].
      apply Hst. split; [done|]. split.
      * intros ->. by rewrite student_key_not_attendance in Hp.
      * intros [_ Heq]. by rewrite Heq in Hne.
    + intros [Hv [k [Hk Hp]]]. apply Hst in Hk as (Hk & _ & Hnot).
      split; [split; [done | by exists k]|].
      destruct (strictEq _ _) eqn:E; [|done]. by destruct Hnot.
Qed.

(** The dashboard's filter over the server's full list, with [sameDay]
    for its test of the day. *)
Lemma dashboard_filter (st : store) tNow (sameDay : json -> bool) :
  readable st ->
  (forall record, In record (attendanceRecords st) ->
     sameDay record = isToday (toDateString tNow) record) ->
  existsb (fun record => truthy record && truthy_opt (field "timestamp" record)
                         && dateThrows record) (attendanceRecords st) = false
  /\ List.filter
       (fun record => truthy record && truthy_opt (field "timestamp" record)
                      && sameDay record)
       (attendanceRecords st)
     ≡ₚ todayRecords tNow st.
Proof.
  intros Hread Hzone.
  assert (forall record, In record (attendanceRecords st) ->
            truthy record && truthy_opt (field "timestamp" record) = true
            /\ dateThrows record = false) as Hlisted.
  { intros record Hin. split.
    - apply In_attendanceRecords_valid in Hin. unfold validRecord in Hin.
      apply andb_prop in Hin as [Hin ->]. apply andb_prop in Hin as [Hin _].
      by apply andb_prop in Hin as [-> _].
    - apply In_attendanceRecords in Hin as [_ [k [Hk Hp]]]. by apply (Hread k). }
  split.
  - apply existsb_false_forall. intros record Hin.
    destruct (Hlisted record Hin) as [_ ->]. apply andb_false_r.
  - rewrite (filter_ext_in _ (isToday (toDateString tNow)) (attendanceRecords st)).
    + unfold todayRecords, todayRecordsOf, attendanceRecords, attendanceRecordsOf.
      etransitivity; [apply filter_Permutation, js_sort_perm|].
      rewrite filter_filter_andb. symmetry. apply js_sort_perm.
    + intros record Hin. destruct (Hlisted record Hin) as [-> _].
      cbn [andb]. by apply Hzone.
Qed.

(** X20. The dashboard reads the calendar day in the browser's time zone
    ([B]), the server in its own ([D]). In a store whose attendance
    timestamps can be read, and when the two agree on which of the
    listed records fall on the day of the reading, the records the
    dashboard counts as today's, out of the full list, are the records
    [GET /attendance/today] returns: the same records, each as many
    times. *)
Theorem dashboardTodayRecords_count (B : JsDate) (st : store) tNow :
  readable st ->
  (forall record, In record (@attendanceRecords D st) ->
     @isToday B (@toDateString B tNow) record
       = @isToday D (@toDateString D tNow) record) ->
  exists today,
    @dashboardTodayRecords B tNow
      (attendanceAPI_getAll nullRead cannotConvert (@listAttendance D st))
      = Some today
    /\ today ≡ₚ attendanceAPI_getToday nullRead cannotConvert
                  (@listAttendanceToday D tNow st)
    /\ length today
       = length (attendanceAPI_getToday nullRead cannotConvert
                   (@listAttendanceToday D tNow st)).
Proof.
  intros Hread Hzone.
  rewrite (getAll_listAttendance nullRead cannotConvert st Hread).
  rewrite (getToday_listAttendanceToday nullRead cannotConvert st tNow Hread).
  destruct (dashboard_filter st tNow (@isToday B (@toDateString B tNow))
              Hread Hzone) as [Hthrows Hperm].
  eexists. split; [|split; [exact Hperm | by rewrite Hperm]].
  unfold dashboardTodayRecords. by rewrite Hthrows.
Qed.

End DashboardFacts.

(** * The further properties at concrete inputs *)

(** Deleting a student nobody stored. *)
Lemma handle_error_writes_nothing_witness :
  (@handle epochDates (DeleteStudent "nobody") Demo.one_student).2
    = Demo.one_student.
Proof.
  apply (@handle_error_writes_nothing epochDates (DeleteStudent "nobody")).
  - vm_compute. discriminate.
  - vm_compute. discriminate.
Defined.

(** Creating [studentX]. *)
Lemma createStudent_listed_witness :
  exists student id,
    field "student" (body (@createStudent epochDates Demo.studentX 1 1 ∅).1)
      = Some student
    /\ field "id" student = Some (JStr id)
    /\ (@createStudent epochDates Demo.studentX 1 1 ∅).2 !! ("student:" ++ id)
         = Some student
    /\ In student (validStudents (@createStudent epochDates Demo.studentX 1 1 ∅).2).
Proof.
  apply (@createStudent_listed epochDates Demo.studentX 1 1 ∅).
  vm_compute. reflexivity.
Defined.

(** Creating [studentY] beside [STU1] and deleting it again. *)
Lemma createStudent_deleteStudent_witness :
  deleteStudent ("STU" ++ pretty 2)
    (@createStudent epochDates Demo.studentY 2 2 Demo.one_student).2 =
    (c_json (obj [("message", JStr "Student deleted successfully")]),
     Demo.one_student).
Proof.
  apply (@createStudent_deleteStudent epochDates Demo.studentY 2 2 Demo.one_student).
  - vm_compute. reflexivity.
  - vm_compute. reflexivity.
  - intros k r Hk Hp. apply one_student_rows in Hk. destruct Hk as [Hk _].
    rewrite Hk in Hp. discriminate Hp.
Defined.

(** Writing students while an attendance row is stored. *)
Lemma student_writes_keep_attendance_witness :
  (forall req tId tCreated,
     (@createStudent epochDates req tId tCreated Demo.with_absent_record).2
       !! "attendance:ATT5" = Demo.with_absent_record !! "attendance:ATT5")
  /\ (forall studentId req,
        (updateStudent studentId req Demo.with_absent_record).2
          !! "attendance:ATT5" = Demo.with_absent_record !! "attendance:ATT5").
Proof.
  apply (@student_writes_keep_attendance epochDates Demo.with_absent_record).
  reflexivity.
Defined.

(** A check-in of [STU1]. *)
Lemma checkIn_keeps_students_witness :
  (@checkIn epochDates (Demo.scan "STU1") 100 101 102 Demo.one_student).2
    !! "student:STU1" = Demo.one_student !! "student:STU1".
Proof.
  apply (@checkIn_keeps_students epochDates). reflexivity.
Defined.

(** The first record of the sample data. *)
Lemma reachable_rows_listed_witness :
  @validRecord DemoBrowser.first_sample = true
  /\ field "status" DemoBrowser.first_sample = Some (JStr "present")
  /\ In DemoBrowser.first_sample (@attendanceRecords epochDates Demo.sample).
Proof.
  apply (@reachable_rows_listed epochDates Demo.sample "attendance:ATT001").
  - apply reachable_step, reachable_empty.
  - vm_compute. reflexivity.
  - reflexivity.
Defined.

(** The list of the sample data. *)
Lemma attendanceRecords_newest_first_witness :
  StronglySorted
    (fun a b => exists ta tb,
       @getTime epochDates a = Some ta /\ @getTime epochDates b = Some tb
       /\ tb <= ta)
    (@attendanceRecords epochDates Demo.sample).
Proof.
  apply (@attendanceRecords_newest_first epochDates Demo.sample).
  apply reachable_step, reachable_empty.
Defined.

(** [STU1] is deleted, then scanned. *)
Lemma deleteStudent_then_checkIn_witness :
  @checkIn epochDates (Demo.scan "STU1") 100 101 102
    (deleteStudent "STU1" Demo.one_student).2 =
    (c_json_status (obj [("error", JStr "Student not found")]) 404,
     (deleteStudent "STU1" Demo.one_student).2).
Proof.
  refine (@deleteStudent_then_checkIn epochDates "STU1" Demo.one_student
            (list_to_map [("qrCode", JStr "STU1")]) (JStr "STU1")
            100 101 102 _ _ _ _).
  - vm_compute. reflexivity.
  - vm_compute. reflexivity.
  - intros k s Hk _ _ _. apply one_student_rows in Hk. exact (proj1 Hk).
  - vm_compute. reflexivity.
Defined.

(** [STU1] is scanned while marked absent for the day. *)
Lemma handleQRScan_duplicate_witness :
  @handleQRScan epochDates DemoBrowser.nullRead DemoBrowser.cannotConvert "STU1" 5 6 7 []
    Demo.with_absent_record =
    (toast_error "Failed to check in student. Please try again.",
     [], Demo.with_absent_record).
Proof.
  refine (@handleQRScan_duplicate epochDates DemoBrowser.nullRead
            DemoBrowser.cannotConvert
            Demo.with_absent_record "STU1"
            (Row "student:STU1" (JObj Demo.stu1)) "X" "attendance:ATT5"
            (JObj (<["status" := JStr "absent"]> Demo.record_core))
            5 6 7 [] _ _ _ _ _ _ _).
  - discriminate.
  - vm_compute. reflexivity.
  - vm_compute. reflexivity.
  - apply readable_rows. vm_compute. reflexivity.
  - vm_compute. reflexivity.
  - reflexivity.
  - vm_compute. reflexivity.
Defined.

(** A code nobody carries is scanned. *)
Lemma handleQRScan_unknown_witness :
  @handleQRScan epochDates DemoBrowser.nullRead DemoBrowser.cannotConvert
    "STU999" 100 101 102 []
    Demo.one_student =
    (toast_error ("No student found with QR code: " ++ "STU999"),
     [], Demo.one_student).
Proof.
  refine (@handleQRScan_unknown epochDates DemoBrowser.nullRead DemoBrowser.cannotConvert
            Demo.one_student "STU999" 100 101 102 [] _).
  intros k s Hk _ _. apply one_student_rows in Hk. destruct Hk as [_ Hs].
  rewrite Hs. vm_compute. reflexivity.
Defined.

(** [STU1] is scanned for the first time. *)
Lemma handleQRScan_success_witness :
  let record :=
    @newAttendanceRecord epochDates (Row "student:STU1" (JObj Demo.stu1)) 101 102 in
  let st' := <["attendance:" ++ "ATT" ++ pretty 101 := record]> Demo.one_student in
  @handleQRScan epochDates DemoBrowser.nullRead DemoBrowser.cannotConvert
    "STU1" 100 101 102 []
    Demo.one_student =
    (toast_success (Some (JStr ("X" ++ " checked in successfully!"))),
     @attendanceRecords epochDates st', st')
  /\ In record (@attendanceRecords epochDates st').
Proof.
  refine (@handleQRScan_success epochDates DemoBrowser.nullRead DemoBrowser.cannotConvert
            Demo.one_student "STU1" (Row "student:STU1" (JObj Demo.stu1)) "X"
            100 101 102 [] _ _ _ _ _).
  - discriminate.
  - vm_compute. reflexivity.
  - vm_compute. reflexivity.
  - apply readable_rows. vm_compute. reflexivity.
  - intros k r Hk Hp. apply one_student_rows in Hk. destruct Hk as [Hk _].
    rewrite Hk in Hp. discriminate Hp.
Defined.

(** The dashboard over the sample data. *)
Lemma lastCheckIn_is_earliest_witness :
  lastCheckIn (fun v => default "" (toString_opt v))
    (@attendanceAPI_getAll DemoBrowser.nullRead DemoBrowser.cannotConvert
       (@listAttendance epochDates Demo.sample))
    = Some (default "" (toString_opt (field "timestamp" DemoBrowser.first_sample)))
  /\ exists t, @getTime epochDates DemoBrowser.first_sample = Some t
       /\ forall other,
            In other (@attendanceAPI_getAll DemoBrowser.nullRead DemoBrowser.cannotConvert
                        (@listAttendance epochDates Demo.sample)) ->
            exists t', @getTime epochDates other = Some t' /\ t <= t'.
Proof.
  refine (@lastCheckIn_is_earliest epochDates DemoBrowser.nullRead
            DemoBrowser.cannotConvert Demo.sample
            (fun v => default "" (toString_opt v)) DemoBrowser.first_sample _ _).
  - apply reachable_step, reachable_empty.
  - vm_compute. reflexivity.
Defined.

Lemma getRecentRecords_latest_ten_witness :
  @getRecentRecords epochDates
    (@attendanceAPI_getAll DemoBrowser.nullRead DemoBrowser.cannotConvert
       (@listAttendance epochDates Demo.sample))
    = Some (take 10 (@attendanceRecords epochDates Demo.sample)).
Proof.
  apply (@getRecentRecords_latest_ten epochDates DemoBrowser.nullRead
           DemoBrowser.cannotConvert Demo.sample).
  apply reachable_step, reachable_empty.
Defined.

(** [STU001] is deleted from the sample data. *)
Lemma dropStudentRecords_as_server_witness :
  exists kept,
    dropStudentRecords "STU001"
      (@attendanceAPI_getAll DemoBrowser.nullRead DemoBrowser.cannotConvert
         (@listAttendance epochDates Demo.sample)) = Some kept
    /\ forall record,
         In record kept <->
         In record (@attendanceAPI_getAll DemoBrowser.nullRead DemoBrowser.cannotConvert
                      (@listAttendance epochDates
                         (deleteStudent "STU001" Demo.sample).2)).
Proof.
  apply (@dropStudentRecords_as_server epochDates DemoBrowser.nullRead
           DemoBrowser.cannotConvert
           Demo.sample "STU001").
  - apply reachable_step, reachable_empty.
  - vm_compute. reflexivity.
Defined.

(** The dashboard over the sample data, browser and server on the same
    calendar. *)
Lemma dashboardTodayRecords_count_witness :
  exists today,
    @dashboardTodayRecords epochDates 100000000
      (attendanceAPI_getAll DemoBrowser.nullRead DemoBrowser.cannotConvert
         (@listAttendance epochDates Demo.sample)) = Some today
    /\ today ≡ₚ attendanceAPI_getToday DemoBrowser.nullRead DemoBrowser.cannotConvert
                  (@listAttendanceToday epochDates 100000000 Demo.sample)
    /\ length today
       = length (attendanceAPI_getToday DemoBrowser.nullRead DemoBrowser.cannotConvert
                   (@listAttendanceToday epochDates 100000000 Demo.sample)).
Proof.
  apply (@dashboardTodayRecords_count epochDates DemoBrowser.nullRead
           DemoBrowser.cannotConvert epochDates Demo.sample 100000000).
  - apply readable_rows. vm_compute. reflexivity.
  - reflexivity.
Defined.
